(** * static-json-api: the request-to-rule resolver of [src/app.controller.ts]

    A shallow embedding of [AppController.getRepoPage] and
    [AppController.getRequestedData].  The controller fetches a configuration
    document, selects the rule list of the request's method, scans it for the
    first rule whose path template matches, validates the body of a guarded
    rule, locates the response data and possibly arms a delayed notification.

    JavaScript values are modelled by a JSON tree, exceptions by an error
    monad, and the two observable side effects of the controller
    ([Logger.error] and [setTimeout]) by a trace of events threaded through
    the computation. *)

From Stdlib Require Import List String Ascii Bool ZArith Lia PrimFloat DecimalString.
Import ListNotations.
Local Open Scope string_scope.

Set Implicit Arguments.
Set Warnings "-register-all".

(** ** JavaScript values *)

(** A JSON tree.  Numbers are IEEE doubles as in JavaScript; objects keep
    their own enumerable properties in [Object.keys] order. *)
Inductive JValue : Type :=
| JNull
| JBool (b : bool)
| JNumber (x : float)
| JString (s : string)
| JArray (items : list JValue)
| JObject (props : list (string * JValue)).

(** [Record<string, unknown>]: the entries of a plain object. *)
Definition JRecord := list (string * JValue).

(** [Object.keys(o)]. *)
Definition Object_keys {A : Type} (o : list (string * A)) : list string :=
  map fst o.

(** [o[k]] on own properties; [None] is [undefined]. *)
Fixpoint getProp {A : Type} (o : list (string * A)) (k : string) : option A :=
  match o with
  | [] => None
  | (k', v) :: rest => if String.eqb k' k then Some v else getProp rest k
  end.

(** The members every plain object inherits from [Object.prototype]: eleven
    functions and the accessor [__proto__]. *)
Definition objectPrototype : list string :=
  ["constructor"; "__defineGetter__"; "__defineSetter__"; "hasOwnProperty";
   "__lookupGetter__"; "__lookupSetter__"; "isPrototypeOf";
   "propertyIsEnumerable"; "toString"; "valueOf"; "__proto__"; "toLocaleString"].

(** What [o[k]] reads on a plain object: an own property, else a member
    inherited from [Object.prototype], else [undefined]. *)
Inductive Member : Type :=
| Own (v : JValue)
| Inherited
| Missing.

Definition readMember (o : JRecord) (k : string) : Member :=
  match getProp o k with
  | Some v => Own v
  | None => if existsb (String.eqb k) objectPrototype then Inherited else Missing
  end.

(** JavaScript truthiness of a value: [null], [false], [0], [NaN] and the empty
    string are falsy, everything else (arrays and objects included) is truthy. *)
Definition truthy (v : JValue) : bool :=
  match v with
  | JNull => false
  | JBool b => b
  | JNumber x => negb (PrimFloat.eqb x 0%float || PrimFloat.is_nan x)
  | JString s => negb (String.eqb s "")
  | JArray _ => true
  | JObject _ => true
  end.

(** Truthiness of a possibly [undefined] value. *)
Definition truthy_opt (v : option JValue) : bool :=
  match v with
  | None => false
  | Some v => truthy v
  end.

(** [typeof v]. *)
Definition typeof (v : JValue) : string :=
  match v with
  | JNull => "object"
  | JBool _ => "boolean"
  | JNumber _ => "number"
  | JString _ => "string"
  | JArray _ => "object"
  | JObject _ => "object"
  end.

(** ** Strings *)

Definition is_lower (c : ascii) : bool :=
  (("a" <=? c)%char && (c <=? "z")%char)%bool.

Definition is_upper (c : ascii) : bool :=
  (("A" <=? c)%char && (c <=? "Z")%char)%bool.

Definition upper_ascii (c : ascii) : ascii :=
  if is_lower c then ascii_of_nat (nat_of_ascii c - 32) else c.

Definition lower_ascii (c : ascii) : ascii :=
  if is_upper c then ascii_of_nat (nat_of_ascii c + 32) else c.

(** Upper-casing of the ASCII letters; every other byte is kept.  This is
    what [s.toUpperCase()] does on ASCII text; it is the upper-casing of the
    example environment below. *)
Fixpoint asciiUpperCase (s : string) : string :=
  match s with
  | EmptyString => EmptyString
  | String c rest => String (upper_ascii c) (asciiUpperCase rest)
  end.

Fixpoint toLowerCase (s : string) : string :=
  match s with
  | EmptyString => EmptyString
  | String c rest => String (lower_ascii c) (toLowerCase rest)
  end.

(** Two characters are the same up to letter case. *)
Definition same_char_nocase (a b : ascii) : Prop :=
  a = b \/ (is_lower a = true /\ b = upper_ascii a)
        \/ (is_lower b = true /\ a = upper_ascii b).

(** Equality of strings up to the case of ASCII letters, character by
    character. *)
Inductive ascii_eq_nocase : string -> string -> Prop :=
| ascii_eq_nocase_nil : ascii_eq_nocase EmptyString EmptyString
| ascii_eq_nocase_cons a b s t :
    same_char_nocase a b -> ascii_eq_nocase s t ->
    ascii_eq_nocase (String a s) (String b t).

(** ** Configuration data model *)

(** Modelled from the spec: the notification policy of a guarded rule
    ([services/configuration] is not part of the sources at hand).  Only the
    three properties read by the controller are kept. *)
Record ScheduleNotification : Type := {
  followProp : string;
  notificationMethod : option string;
  timeoutInSecond : float
}.

(** Modelled from the spec: the class [PostApi] of [services/configuration], a
    rule with a body contract.  [bodyFields] may be undefined (the controller
    reads it as [pathConfig.bodyFields ?? {}]). *)
Record PostApi : Type := {
  path : string;
  bodyFields : option (list (string * bool));
  restrictedBody : bool;
  scheduleNotification : option ScheduleNotification
}.

(** An element of a method's rule list, as the controller discriminates it:
    [typeof pathConfig == 'string'], [pathConfig instanceof PostApi], or
    anything else.  The constructor carries the result of the two tests;
    [POther v] stands for a value [v] that passes neither. *)
Inductive PathConfig : Type :=
| PString (s : string)
| PPostApi (p : PostApi)
| POther (v : JValue).

(** The value stored under a method key: [methodConfig instanceof Array] or
    not; [MNotArray v] stands for a value [v] that is no array. *)
Inductive MethodConfig : Type :=
| MArray (rules : list PathConfig)
| MNotArray (v : JValue).

(** Modelled from the spec: the class [MockApiConfig] of
    [services/configuration].  [routes] keeps its entries in
    [Object.entries] order; [otherProps] are the remaining own properties of
    the configuration document (the data a [dbDataPath] can point at). *)
Record MockApiConfig : Type := {
  apiRoutePrefix : string;
  dbFile : string;
  dbDataPath : string;
  routes : list (string * MethodConfig);
  otherProps : JRecord
}.

Definition option_props (k : string) (v : option JValue) : JRecord :=
  match v with
  | Some v => [(k, v)]
  | None => []
  end.

Definition notificationAsRecord (n : ScheduleNotification) : JValue :=
  JObject ([("followProp", JString (followProp n))]
           ++ option_props "notificationMethod"
                (option_map JString (notificationMethod n))
           ++ [("timeoutInSecond", JNumber (timeoutInSecond n))]).

Definition postApiAsRecord (p : PostApi) : JValue :=
  JObject ([("path", JString (path p))]
           ++ option_props "bodyFields"
                (option_map
                   (fun fs => JObject (map (fun kv => (fst kv, JBool (snd kv))) fs))
                   (bodyFields p))
           ++ [("restrictedBody", JBool (restrictedBody p))]
           ++ option_props "scheduleNotification"
                (option_map notificationAsRecord (scheduleNotification p))).

Definition pathConfigAsValue (r : PathConfig) : JValue :=
  match r with
  | PString s => JString s
  | PPostApi p => postApiAsRecord p
  | POther v => v
  end.

Definition methodConfigAsValue (m : MethodConfig) : JValue :=
  match m with
  | MArray rules => JArray (map pathConfigAsValue rules)
  | MNotArray v => v
  end.

(** [configData as unknown as Record<string, unknown>] (line 201): the
    configuration object read as a plain document. *)
Definition asRecord (c : MockApiConfig) : JValue :=
  JObject ([("apiRoutePrefix", JString (apiRoutePrefix c));
            ("dbFile", JString (dbFile c));
            ("dbDataPath", JString (dbDataPath c));
            ("routes",
             JObject (map (fun e => (fst e, methodConfigAsValue (snd e)))
                          (routes c)))]
           ++ otherProps c).

(** ** Request *)

(** The route parameters of [':githubId/:repository/:branch/*']; [param0] is
    [params['0']], the part matched by the wildcard. *)
Record Params : Type := {
  githubId : string;
  repository : string;
  branch : string;
  param0 : string
}.

Definition paramsAsValue (p : Params) : JValue :=
  JObject [("githubId", JString (githubId p));
           ("repository", JString (repository p));
           ("branch", JString (branch p));
           ("0", JString (param0 p))].

(** The part of the express [Request] the controller reads. *)
Record Request : Type := {
  method : string
}.

(** ** Deep-path extraction *)

Definition is_separator (c : ascii) : bool :=
  (Ascii.eqb c "." || Ascii.eqb c "/")%bool.

(** The non-empty runs of characters between separators. *)
Fixpoint splitWhere (sep : ascii -> bool) (cur : string) (s : string) : list string :=
  match s with
  | EmptyString => if String.eqb cur "" then [] else [cur]
  | String c rest =>
      if sep c
      then (if String.eqb cur "" then splitWhere sep "" rest
            else cur :: splitWhere sep "" rest)
      else splitWhere sep (cur ++ String c EmptyString) rest
  end.

(** The segments of a dot/slash path; empty segments are dropped. *)
Definition pathSegments (s : string) : list string :=
  splitWhere is_separator "" s.

Definition digit_of (c : ascii) : option nat :=
  if (("0" <=? c)%char && (c <=? "9")%char)%bool
  then Some (nat_of_ascii c - 48)
  else None.

Fixpoint parseIndex_from (acc : nat) (s : string) : option nat :=
  match s with
  | EmptyString => Some acc
  | String c rest =>
      match digit_of c with
      | Some d => parseIndex_from (10 * acc + d) rest
      | None => None
      end
  end.

(** A segment read as an array index: a non-empty run of decimal digits. *)
Definition parseIndex (s : string) : option nat :=
  match s with
  | EmptyString => None
  | _ => parseIndex_from 0 s
  end.

(** One step down the tree: a property of an object, or an element of an
    array. *)
Definition child (seg : string) (v : JValue) : option JValue :=
  match v with
  | JObject props => getProp props seg
  | JArray items =>
      match parseIndex seg with
      | Some i => nth_error items i
      | None => None
      end
  | _ => None
  end.

Fixpoint walk (segs : list string) (v : JValue) : option JValue :=
  match segs with
  | [] => Some v
  | seg :: rest =>
      match child seg v with
      | Some c => walk rest c
      | None => None
      end
  end.

(** Modelled from the spec: the behaviour of [getSubRecordFromRoot] of
    [utils/util], which is not part of the sources at hand.  It follows a
    dot/slash-style deep path from the root of a parsed document and returns
    the nested value, or [undefined] ([None]) when the path has no
    corresponding node. *)
Definition subRecordFromRoot (dataPath : string) (root : JValue) : option JValue :=
  walk (pathSegments dataPath) root.

(** The node found at the end of a list of segments, as a relation. *)
Inductive node_at : list string -> JValue -> JValue -> Prop :=
| node_here v : node_at [] v v
| node_below seg rest v c w :
    child seg v = Some c -> node_at rest c w -> node_at (seg :: rest) v w.

(** ** Exceptions, events and the controller monad *)

(** What a [BadRequestException] carries: the errors of the configuration
    stage, or the field names interpolated (through [JSON.stringify]) into
    the messages [Not allowed fields [...] provided.] and
    [Mandatory fields [...] should be provided.]. *)
Inductive BadRequestBody : Type :=
| ConfigErrors (errors : list string)
| NotAllowedFields (fields : list string)
| MandatoryFields (fields : list string).

(** The exceptions that leave the controller.  The first four are the
    NestJS HTTP exceptions thrown by the code; [TypeError] and [SyntaxError]
    are the native errors of [pathToRegexp], [new URL] and [JSON.parse], which
    the controller does not catch. *)
Inductive Exception : Type :=
| BadRequestException (body : BadRequestBody)
| MethodNotAllowedException
| NotFoundException (message : option string)
| InternalServerErrorException
| TypeError (message : string)
| SyntaxError.

(** The native errors a library call can throw, carried as they are thrown. *)
Inductive NativeError : Type :=
| NativeTypeError (message : string)
| NativeSyntaxError.

(** The exception that leaves the controller when a native error is not
    caught. *)
Definition raise (e : NativeError) : Exception :=
  match e with
  | NativeTypeError message => TypeError message
  | NativeSyntaxError => SyntaxError
  end.

(** The argument of [axios.request]. *)
Record AxiosRequest : Type := {
  req_method : string;
  req_url : string;
  req_timeout : Z
}.

(** The side effects of the controller: a logged error, and a one-shot timer
    that performs an outbound call after [delay] milliseconds. *)
Inductive Event : Type :=
| LogError (message : string)
| SetTimeout (call : AxiosRequest) (delay : float).

Inductive Completion (A : Type) : Type :=
| Return (a : A)
| Throw (e : Exception).

Arguments Return {A} a.
Arguments Throw {A} e.

(** A computation threads the trace of events and ends by returning or
    throwing. *)
Definition M (A : Type) : Type := list Event -> Completion A * list Event.

Definition ret {A : Type} (a : A) : M A :=
  fun t => (Return a, t).

Definition throw {A : Type} (e : Exception) : M A :=
  fun t => (Throw e, t).

Definition emit (e : Event) : M unit :=
  fun t => (Return tt, (t ++ [e])%list).

Definition bind {A B : Type} (m : M A) (k : A -> M B) : M B :=
  fun t =>
    match m t with
    | (Return a, t') => k a t'
    | (Throw e, t') => (Throw e, t')
    end.

Declare Scope ctrl_scope.
Delimit Scope ctrl_scope with ctrl.
Notation "x <- m ;; k" := (bind m (fun x => k))
  (at level 61, m at next level, right associativity) : ctrl_scope.
Notation "m ;; k" := (bind m (fun _ => k))
  (at level 61, right associativity) : ctrl_scope.
Local Open Scope ctrl_scope.

(** The outcome and the events of a computation started on an empty trace. *)
Definition outcome {A : Type} (m : M A) : Completion A := fst (m []).
Definition events {A : Type} (m : M A) : list Event := snd (m []).

(** The timers armed by a computation. *)
Definition is_timer (e : Event) : bool :=
  match e with
  | SetTimeout _ _ => true
  | LogError _ => false
  end.

Definition scheduled {A : Type} (m : M A) : list Event :=
  filter is_timer (events m).

(** ** External collaborators *)

(** A candidate location handed to [getRawFile]. *)
Record Candidate : Type := {
  url : string;
  headers : list (string * string)
}.

(** The [{ errors, rawData }] answer of [getRawFile]. *)
Inductive RawFile : Type :=
| RawErrors (errors : list string)
| RawData (rawData : string).

(** What the controller imports and does not define.  [pathToRegexp]
    compiles a template into a test of a path ([exec] returning a match or
    [null]), or throws its own error ([inl]) on a template it cannot parse;
    [new_URL] is
    [new URL(v).toString()] and throws on a value that is no URL;
    [JSON_parse] throws on text that is no JSON; [toUpperCase] is
    [String.prototype.toUpperCase], the upper-casing of the language, with
    its Unicode mappings. *)
Class Collaborators : Type := {
  getRawFile : list Candidate -> RawFile;
  loadConfig : string -> list string * MockApiConfig;
  normalizePath : string -> string;
  path_join : string -> string -> string;
  pathToRegexp : string -> NativeError + (string -> bool);
  new_URL : JValue -> option string;
  JSON_parse : string -> option JValue;
  getSubRecordFromRoot : string -> JValue -> option JValue;
  toUpperCase : string -> string
}.

Definition configFileName : string := ".mockapi.yml".
Definition gitApiHost : string := "https://api.github.com".
Definition gitRowHost : string := "https://raw.githubusercontent.com".

(** ** The controller *)

Section Controller.

Context {env : Collaborators}.

(** [arr.find((e) => e == k)] on an array of strings: the first element equal
    to [k], or [undefined]. *)
Definition find_eq (k : string) (arr : list string) : option string :=
  find (fun e => String.eqb e k) arr.

(** Truthiness of the result of [find] on an array of strings: a found
    element counts only when it is not the empty string. *)
Definition truthy_found (r : option string) : bool :=
  match r with
  | Some e => negb (String.eqb e "")
  | None => false
  end.

(** Lines 133-135:
    [requestBodyKey.filter((k) => !bodyFields.find((e) => e == k))]. *)
Definition notAllowedFields (bodyFields requestBodyKey : list string) : list string :=
  filter (fun k => negb (truthy_found (find_eq k bodyFields))) requestBodyKey.

(** [(pathConfig.bodyFields ?? {})[field] === true]. *)
Definition declared_true (pathConfig : PostApi) (field : string) : bool :=
  match getProp (match pathConfig.(bodyFields) with Some o => o | None => [] end) field with
  | Some true => true
  | _ => false
  end.

(** Lines 142-146: the declared fields whose flag is [true] and for which
    [requestBodyKey.find((k) => k == field)] is falsy. *)
Definition missingFields (pathConfig : PostApi) (bodyFields requestBodyKey : list string)
  : list string :=
  filter (fun field =>
            declared_true pathConfig field
            && negb (truthy_found (find_eq field requestBodyKey)))
         bodyFields.

(** [arr.length > 0]. *)
Definition nonEmpty {A : Type} (arr : list A) : bool :=
  (0 <? List.length arr)%nat.

(** Lines 205-218: the two candidate locations of the data file. *)
Definition dataFileCandidates (configData : MockApiConfig)
    (repoRootUrl1 repoRootUrl2 : string) : list Candidate :=
  [ {| url := path_join repoRootUrl1 configData.(dbFile); headers := [] |};
    {| url := path_join repoRootUrl2 configData.(dbFile);
       headers := [("Accept", "application/vnd.github.raw")] |} ].

(** Lines 193-223. *)
Definition getRequestedData (configData : MockApiConfig) (repoRootUrl1 repoRootUrl2 : string)
  : M (option JValue) :=
  if String.eqb configData.(dbFile) configFileName
  then ret (getSubRecordFromRoot configData.(dbDataPath) (asRecord configData))
  else
    match getRawFile (dataFileCandidates configData repoRootUrl1 repoRootUrl2) with
    | RawErrors _ => ret (Some JNull)
    | RawData rawData =>
        match JSON_parse rawData with
        | None => throw SyntaxError
        | Some document => ret (getSubRecordFromRoot configData.(dbDataPath) document)
        end
    end.

(** [if (!requestedData) { throw new NotFoundException(); }] *)
Definition orNotFound (requestedData : option JValue) : M JValue :=
  match requestedData with
  | Some data => if truthy data then ret data else throw (NotFoundException None)
  | None => throw (NotFoundException None)
  end.

(** Lines 94-99 and 119-124: the template of a rule compiled and run on the
    request path; [inl e] when [pathToRegexp] throws [e]. *)
Definition matches (configData : MockApiConfig) (rulePath extendedPath : string)
  : NativeError + bool :=
  let routePath := path_join configData.(apiRoutePrefix) rulePath in
  match pathToRegexp (normalizePath routePath) with
  | inr locationRegexp => inr (locationRegexp extendedPath)
  | inl e => inl e
  end.

(** Lines 166-177: the notification of a guarded rule.  An inherited member
    is a function, or the prototype object itself: it is truthy, and its
    string form is no URL, so that [new URL] throws. *)
Definition scheduleIfAsked (pathConfig : PostApi) (requestBody : JRecord) : M unit :=
  match pathConfig.(scheduleNotification) with
  | Some notificationConfig =>
      match readMember requestBody notificationConfig.(followProp) with
      | Own endPoint =>
          if truthy endPoint
          then
            match new_URL endPoint with
            | Some href =>
                emit (SetTimeout
                        {| req_method :=
                             match notificationConfig.(notificationMethod) with
                             | Some m => m
                             | None => "GET"
                             end;
                           req_url := href;
                           req_timeout := 5000 |}
                        (notificationConfig.(timeoutInSecond) * 1000)%float)
            | None => throw (TypeError "Invalid URL")
            end
          else ret tt
      | Inherited => throw (TypeError "Invalid URL")
      | Missing => ret tt
      end
  | None => ret tt
  end.

(** Lines 129-153: the body of the request against the contract of a guarded
    rule. *)
Definition checkBody (pathConfig : PostApi) (requestBody : JRecord) : M unit :=
  let bodyFields := Object_keys (match pathConfig.(bodyFields) with
                                 | Some o => o
                                 | None => []
                                 end) in
  let requestBodyKey := Object_keys requestBody in
  (if pathConfig.(restrictedBody)
   then
     let notAllowed := notAllowedFields bodyFields requestBodyKey in
     if nonEmpty notAllowed
     then throw (BadRequestException (NotAllowedFields notAllowed))
     else ret tt
   else ret tt) ;;
  let missing := missingFields pathConfig bodyFields requestBodyKey in
  if nonEmpty missing
  then throw (BadRequestException (MandatoryFields missing))
  else ret tt.

(** Lines 129-178: what happens once the path of a guarded rule has matched. *)
Definition guardedRule (configData : MockApiConfig) (pathConfig : PostApi)
    (requestBody : JRecord) (repoRootUrl1 repoRootUrl2 : string) : M JValue :=
  checkBody pathConfig requestBody ;;
  requestedData <- getRequestedData configData repoRootUrl1 repoRootUrl2 ;;
  data <- orNotFound requestedData ;;
  scheduleIfAsked pathConfig requestBody ;;
  ret data.

(** Lines 104-112: what happens once the path of a string rule has matched. *)
Definition simpleRule (configData : MockApiConfig) (repoRootUrl1 repoRootUrl2 : string)
  : M JValue :=
  requestedData <- getRequestedData configData repoRootUrl1 repoRootUrl2 ;;
  orNotFound requestedData.

(** Lines 91-183: the scan of a method's rule list, and the
    [NotFoundException] thrown after the loop. *)
Fixpoint scanRules (configData : MockApiConfig) (extendedPath : string)
    (requestBody : JRecord) (repoRootUrl1 repoRootUrl2 : string)
    (methodConfig : list PathConfig) : M JValue :=
  match methodConfig with
  | [] =>
      throw (NotFoundException
               (Some ("The requested entity was not found in the current location: "
                        ++ extendedPath)))
  | pathConfig :: rest =>
      let continue :=
        scanRules configData extendedPath requestBody repoRootUrl1 repoRootUrl2 rest in
      match pathConfig with
      | PString s =>
          match matches configData s extendedPath with
          | inl e => throw (raise e)
          | inr false => continue
          | inr true => simpleRule configData repoRootUrl1 repoRootUrl2
          end
      | PPostApi p =>
          match matches configData p.(path) extendedPath with
          | inl e => throw (raise e)
          | inr false => continue
          | inr true => guardedRule configData p requestBody repoRootUrl1 repoRootUrl2
          end
      | POther _ => continue
      end
  end.

(** Lines 76-190: the loop over [Object.entries(configData.routes)] and what
    follows it. *)
Fixpoint routesLoop (configData : MockApiConfig) (params : Params)
    (requestBody : JRecord) (requestMethod : string)
    (repoRootUrl1 repoRootUrl2 : string)
    (entries : list (string * MethodConfig)) (methodFound : bool) : M JValue :=
  match entries with
  | [] =>
      if negb methodFound
      then throw MethodNotAllowedException
      else ret (paramsAsValue params)
  | (method, methodConfig) :: rest =>
      if negb (String.eqb (toUpperCase method) requestMethod)
      then routesLoop configData params requestBody requestMethod
             repoRootUrl1 repoRootUrl2 rest methodFound
      else
        match methodConfig with
        | MNotArray v =>
            emit (LogError
                    ("Invalid data type for method config. expected Array. found "
                       ++ typeof v)) ;;
            throw InternalServerErrorException
        | MArray rules =>
            let extendedPath := normalizePath params.(param0) in
            scanRules configData extendedPath requestBody repoRootUrl1 repoRootUrl2 rules
        end
  end.

Definition repoRootUrl1 (params : Params) : string :=
  gitRowHost ++ "/" ++ params.(githubId) ++ "/" ++ params.(repository)
    ++ "/" ++ params.(branch).

Definition repoRootUrl2 (params : Params) : string :=
  gitApiHost ++ "/repos/" ++ params.(githubId) ++ "/" ++ params.(repository)
    ++ "/contents".

(** Lines 74-190: the resolution of a request against a loaded
    configuration. *)
Definition resolve (configData : MockApiConfig) (params : Params)
    (requestBody : JRecord) (req : Request) : M JValue :=
  let requestMethod := toUpperCase req.(method) in
  routesLoop configData params requestBody requestMethod
    (repoRootUrl1 params) (repoRootUrl2 params) configData.(routes) false.

(** Lines 41-191. *)
Definition getRepoPage (params : Params) (requestBody : JRecord) (req : Request)
  : M JValue :=
  match getRawFile
          [ {| url := repoRootUrl1 params ++ "/" ++ configFileName; headers := [] |};
            {| url := repoRootUrl2 params ++ "/" ++ configFileName;
               headers := [("Accept", "application/vnd.github.raw")] |} ] with
  | RawErrors configErrors =>
      emit (LogError ("> Failed to retrieve raw data from " ++ gitRowHost ++ ".")) ;;
      throw (BadRequestException (ConfigErrors configErrors))
  | RawData rawFile =>
      let (errors, configData) := loadConfig rawFile in
      if nonEmpty errors
      then throw (BadRequestException (ConfigErrors errors))
      else resolve configData params requestBody req
  end.

End Controller.

(** ** Vocabulary of the specification *)

Section Vocabulary.

Context {env : Collaborators}.

(** Case-insensitive equality as the controller tests it (lines 74 and 78):
    the two strings have the same upper-casing. *)
Definition eq_nocase (k m : string) : Prop :=
  toUpperCase k = toUpperCase m.

(** The path template a rule carries, if it is a rule at all. *)
Definition rulePath (r : PathConfig) : option string :=
  match r with
  | PString s => Some s
  | PPostApi p => Some p.(path)
  | POther _ => None
  end.

(** The scan passes over [r]: it is no rule, or its template compiles and
    does not match the request path. *)
Definition passedOver (configData : MockApiConfig) (extendedPath : string)
    (r : PathConfig) : Prop :=
  match rulePath r with
  | Some s => matches configData s extendedPath = inr false
  | None => True
  end.

(** The compiled template of [r] matches the request path. *)
Definition pathMatches (configData : MockApiConfig) (extendedPath : string)
    (r : PathConfig) : Prop :=
  exists s, rulePath r = Some s /\ matches configData s extendedPath = inr true.

(** [r] is the first rule with a matching path in the rule list of the first
    routes key that equals the request's method up to case. *)
Definition selects (configData : MockApiConfig) (params : Params) (req : Request)
    (r : PathConfig) : Prop :=
  exists before key earlier later after,
    configData.(routes) = (before ++ (key, MArray (earlier ++ r :: later)) :: after)%list
    /\ (forall k, In k (Object_keys before) -> ~ eq_nocase k req.(method))
    /\ eq_nocase key req.(method)
    /\ Forall (passedOver configData (normalizePath params.(param0))) earlier
    /\ pathMatches configData (normalizePath params.(param0)) r.

(** What the resolution of the request is once [r] is selected. *)
Definition commitRule (configData : MockApiConfig) (params : Params)
    (requestBody : JRecord) (r : PathConfig) : M JValue :=
  match r with
  | PString _ => simpleRule configData (repoRootUrl1 params) (repoRootUrl2 params)
  | PPostApi p =>
      guardedRule configData p requestBody (repoRootUrl1 params) (repoRootUrl2 params)
  | POther _ => throw InternalServerErrorException
  end.

(** The body passes the contract of [r] (nothing to pass for a string
    rule). *)
Definition bodyAccepted (r : PathConfig) (requestBody : JRecord) : Prop :=
  match r with
  | PPostApi p => outcome (checkBody p requestBody) = Return tt
  | _ => True
  end.

(** [k] is one of [keys]. *)
Definition among (keys : list string) (k : string) : bool :=
  existsb (String.eqb k) keys.

(** In the words of the specification: the declared fields whose mandatory
    flag is true and which do not appear among the keys of the body. *)
Definition spec_missing (declared : list (string * bool)) (requestBody : JRecord)
  : list string :=
  filter (fun f => match getProp declared f with
                   | Some true => negb (among (Object_keys requestBody) f)
                   | _ => false
                   end)
         (Object_keys declared).

(** In the words of the specification: the keys of the body that are absent
    from the declared field set. *)
Definition spec_disallowed (declared : list (string * bool)) (requestBody : JRecord)
  : list string :=
  filter (fun k => negb (among (Object_keys declared) k)) (Object_keys requestBody).

(** The declared fields of a guarded rule, none when [bodyFields] is
    undefined. *)
Definition declaredFields (p : PostApi) : list (string * bool) :=
  match p.(bodyFields) with
  | Some o => o
  | None => []
  end.

(** A guarded rule arms a notification for a body: the rule has a policy,
    the body holds a truthy value at [followProp], and that value reads as a
    URL. *)
Definition armed (p : PostApi) (requestBody : JRecord) : Prop :=
  exists policy target href,
    p.(scheduleNotification) = Some policy
    /\ getProp requestBody policy.(followProp) = Some target
    /\ truthy target = true
    /\ new_URL target = Some href.

(** The outbound call of a policy to [href]: the policy's method, [GET] by
    default, and a timeout of 5000 milliseconds. *)
Definition notificationCall (policy : ScheduleNotification) (href : string)
  : AxiosRequest :=
  {| req_method := match policy.(notificationMethod) with
                   | Some m => m
                   | None => "GET"
                   end;
     req_url := href;
     req_timeout := 5000 |}.

(** The exceptions that can leave the scan of a rule list: the failures of
    the body check, a [NotFoundException], and the native errors of
    [pathToRegexp], [new URL] and [JSON.parse]. *)
Definition thrownByScan (e : Exception) : bool :=
  match e with
  | BadRequestException (NotAllowedFields _) => true
  | BadRequestException (MandatoryFields _) => true
  | BadRequestException (ConfigErrors _) => false
  | NotFoundException _ => true
  | TypeError _ => true
  | SyntaxError => true
  | MethodNotAllowedException => false
  | InternalServerErrorException => false
  end.

(** What a scan started on the trace [t] can end with: an exception of the
    scan and no event, or the truthy value located by [getRequestedData],
    with no event or with one timer. *)
Definition scanResult (configData : MockApiConfig) (u1 u2 : string)
    (t : list Event) (r : Completion JValue * list Event) : Prop :=
  (exists e, r = (Throw e, t) /\ thrownByScan e = true)
  \/ (exists data,
         outcome (getRequestedData configData u1 u2) = Return (Some data)
         /\ truthy data = true
         /\ (r = (Return data, t)
             \/ exists call delay,
                  r = (Return data, (t ++ [SetTimeout call delay])%list))).

End Vocabulary.

(** ** A small environment for examples

    Files are served from a table, templates are made of literal segments
    and [:name] parameters, and a URL is a string that starts with
    [http://] or [https://]. *)

Module Demo.

Record Remote : Type := {
  files : list (string * string);
  configs : list (string * (list string * MockApiConfig));
  documents : list (string * JValue)
}.

Definition emptyConfig : MockApiConfig :=
  {| apiRoutePrefix := ""; dbFile := ""; dbDataPath := ""; routes := [];
     otherProps := [] |}.

(** The first candidate that the table serves. *)
Fixpoint fetch (files : list (string * string)) (candidates : list Candidate) : RawFile :=
  match candidates with
  | [] => RawErrors []
  | c :: rest =>
      match getProp files c.(url) with
      | Some raw => RawData raw
      | None =>
          match fetch files rest with
          | RawErrors errors => RawErrors (("cannot fetch " ++ c.(url)) :: errors)
          | RawData raw => RawData raw
          end
      end
  end.

Fixpoint stripTrailingSlashes (s : string) : string :=
  match s with
  | EmptyString => EmptyString
  | String c rest =>
      let rest' := stripTrailingSlashes rest in
      if (Ascii.eqb c "/" && String.eqb rest' "")%bool then EmptyString
      else String c rest'
  end.

Fixpoint collapseSlashes (s : string) : string :=
  match s with
  | EmptyString => EmptyString
  | String c rest =>
      if (Ascii.eqb c "/" && String.prefix "/" rest)%bool then collapseSlashes rest
      else String c (collapseSlashes rest)
  end.

(** [normalizePath] of [@nestjs/common/utils/shared.utils]. *)
Definition normalizePath (p : string) : string :=
  if String.eqb p "" then "/"
  else if String.prefix "/" p
       then collapseSlashes ("/" ++ stripTrailingSlashes p)
       else "/" ++ stripTrailingSlashes p.

(** [path.join] on two segments without [.] or [..]. *)
Definition path_join (a b : string) : string :=
  if String.eqb a "" then (if String.eqb b "" then "." else collapseSlashes b)
  else if String.eqb b "" then collapseSlashes a
       else collapseSlashes (a ++ "/" ++ b).

Definition is_slash (c : ascii) : bool := Ascii.eqb c "/".

Definition segmentMatches (template segment : string) : bool :=
  if String.prefix ":" template then true
  else String.eqb (toLowerCase template) (toLowerCase segment).

Fixpoint segmentsMatch (templates segments : list string) : bool :=
  match templates, segments with
  | [], [] => true
  | t :: ts, s :: ss => segmentMatches t s && segmentsMatch ts ss
  | _, _ => false
  end.

(** A character of a parameter name: a letter, a digit or [_]. *)
Definition is_name_char (c : ascii) : bool :=
  (is_lower c || is_upper c || (("0" <=? c)%char && (c <=? "9")%char)
   || Ascii.eqb c "_")%bool.

Definition starts_name (s : string) : bool :=
  match s with
  | String c _ => is_name_char c
  | EmptyString => false
  end.

(** The position, counted from [i], of the first [:] that no name follows. *)
Fixpoint missingName (i : nat) (s : string) : option nat :=
  match s with
  | EmptyString => None
  | String c rest =>
      if (Ascii.eqb c ":" && negb (starts_name rest))%bool then Some i
      else missingName (S i) rest
  end.

(** Case-insensitive, loose about a trailing slash, anchored at both ends;
    a parameter without a name is refused with the error of the library. *)
Definition pathToRegexp (template : string) : NativeError + (string -> bool) :=
  match missingName 0 template with
  | Some i =>
      inl (NativeTypeError
             ("Missing parameter name at " ++ NilEmpty.string_of_uint (Nat.to_uint i)))
  | None =>
      let templates := splitWhere is_slash "" template in
      inr (fun p => segmentsMatch templates (splitWhere is_slash "" p))
  end.

Definition new_URL (v : JValue) : option string :=
  match v with
  | JString s =>
      if ((String.prefix "https://" s && negb (String.eqb s "https://"))
          || (String.prefix "http://" s && negb (String.eqb s "http://")))%bool
      then Some s else None
  | _ => None
  end.

Definition environment (remote : Remote) : Collaborators :=
  Build_Collaborators
    (fetch remote.(files))
    (fun raw =>
       match getProp remote.(configs) raw with
       | Some r => r
       | None => (["invalid configuration"], emptyConfig)
       end)
    normalizePath
    path_join
    pathToRegexp
    new_URL
    (fun raw => getProp remote.(documents) raw)
    subRecordFromRoot
    asciiUpperCase.

(** The remote that serves nothing. *)
Definition nothing : Remote := {| files := []; configs := []; documents := [] |}.

(** Nothing can be fetched. *)
Definition offline : Collaborators :=
  environment {| files := []; configs := []; documents := [] |}.

(** A guarded rule on [/orders]. *)
Definition ordersRule (fields : list (string * bool)) (restricted : bool)
    (policy : option ScheduleNotification) : PostApi :=
  {| path := "/orders"; bodyFields := Some fields; restrictedBody := restricted;
     scheduleNotification := policy |}.

(** A configuration with one list of rules under [post]; the data sits in
    the document itself, under [data.orders], when [file] is the name of the
    configuration file. *)
Definition config (rules : list PathConfig) (file : string) : MockApiConfig :=
  {| apiRoutePrefix := "/api";
     dbFile := file;
     dbDataPath := "data.orders";
     routes := [("get", MArray [PString "/users"]); ("post", MArray rules)];
     otherProps := [("data", JObject [("orders", JArray [JString "o1"; JString "o2"])])] |}.

Definition params : Params :=
  {| githubId := "octo"; repository := "mock"; branch := "main";
     param0 := "api/orders" |}.

Definition post : Request := {| method := "POST" |}.

Definition callback : ScheduleNotification :=
  {| followProp := "cb"; notificationMethod := None; timeoutInSecond := 2 |}.

(** A remote that serves [orders.json] from the raw-content host only, and
    [empty.json] with a document that has no [data].  The URLs are the ones
    [path_join] builds, with the slashes after the scheme collapsed. *)
Definition remote : Remote :=
  {| files := [("https:/raw.githubusercontent.com/octo/mock/main/orders.json", "ORDERS");
               ("https:/raw.githubusercontent.com/octo/mock/main/empty.json", "EMPTY")];
     configs := [];
     documents := [("ORDERS", JObject [("data", JObject [("orders", JString "o9")])]);
                   ("EMPTY", JObject [])] |}.

Definition online : Collaborators := environment remote.

(** A guarded rule that wants [a], between a rule on another path and a
    string rule on the same path. *)
Definition wantsA : PostApi := ordersRule [("a", true); ("b", false)] false None.

Definition twoOnOrders : list PathConfig :=
  [PString "/users"; PPostApi wantsA; PString "/orders"].

(** A guarded rule that declares only [a], mandatory, and allows nothing
    else. *)
Definition onlyA : PostApi := ordersRule [("a", true)] true None.

(** A guarded rule whose only declared field has the empty name. *)
Definition emptyName (restricted : bool) : PostApi :=
  ordersRule [("", true)] restricted None.

(** A guarded rule with a notification policy on [cb]. *)
Definition withCallback : PostApi := ordersRule [] false (Some callback).

(** The data of the example configuration. *)
Definition orders : JValue := JArray [JString "o1"; JString "o2"].

(** A configuration whose [Post] entry is a string, not a list. *)
Definition brokenConfig : MockApiConfig :=
  {| apiRoutePrefix := "/api";
     dbFile := configFileName;
     dbDataPath := "data.orders";
     routes := [("get", MArray [PString "/users"]); ("Post", MNotArray (JString "/orders"))];
     otherProps := [] |}.

(** A configuration whose data, under [data.orders], is the number zero. *)
Definition zeroConfig : MockApiConfig :=
  {| apiRoutePrefix := "/api";
     dbFile := configFileName;
     dbDataPath := "data.orders";
     routes := [("post", MArray [PString "/orders"])];
     otherProps := [("data", JObject [("orders", JNumber 0)])] |}.

(** A configuration with two keys that serve [POST]: the first has no rule
    on [/orders], the second has one. *)
Definition twoPostKeys : MockApiConfig :=
  {| apiRoutePrefix := "/api";
     dbFile := configFileName;
     dbDataPath := "data.orders";
     routes := [("post", MArray [PString "/users"]);
                ("POST", MArray [PString "/orders"])];
     otherProps := [("data", JObject [("orders", orders)])] |}.

(** A remote that serves a data file that is no JSON, and a configuration
    file that [loadConfig] rejects. *)
Definition staleRemote : Remote :=
  {| files := [("https:/raw.githubusercontent.com/octo/mock/main/orders.json",
                "<html>moved</html>");
               ("https://raw.githubusercontent.com/octo/mock/main/.mockapi.yml",
                "DRAFT")];
     configs := [("DRAFT", (["routes is missing"], emptyConfig))];
     documents := [] |}.

Definition stale : Collaborators := environment staleRemote.

(** A guarded rule without [bodyFields]. *)
Definition noContract (restricted : bool) : PostApi :=
  {| path := "/orders"; bodyFields := None; restrictedBody := restricted;
     scheduleNotification := None |}.

(** A guarded rule whose policy follows the field [constructor]. *)
Definition followsConstructor : PostApi :=
  ordersRule [] false
    (Some {| followProp := "constructor"; notificationMethod := None;
             timeoutInSecond := 2 |}).

(** A configuration whose routes are declared under a key that only the
    upper-casing of the language maps to [POST]: its third letter is the
    long s, U+017F. *)
Definition longSKey : string :=
  String "p" (String "o" (String (ascii_of_nat 197) (String (ascii_of_nat 191) "t"))).

(** Upper-casing that also maps the long s (the bytes 197 and 191 of its
    UTF-8 form) to [S], as the upper-casing of the language does. *)
Fixpoint upperWithLongS (s : string) : string :=
  match s with
  | EmptyString => EmptyString
  | String c rest =>
      match rest with
      | String d rest' =>
          if (Ascii.eqb c (ascii_of_nat 197) && Ascii.eqb d (ascii_of_nat 191))%bool
          then String "S" (upperWithLongS rest')
          else String (upper_ascii c) (upperWithLongS rest)
      | EmptyString => String (upper_ascii c) EmptyString
      end
  end.

(** The offline environment with that upper-casing. *)
Definition unicode : Collaborators :=
  Build_Collaborators
    (fetch []) (fun _ => (["invalid configuration"], emptyConfig))
    normalizePath path_join pathToRegexp new_URL (fun _ => None)
    subRecordFromRoot upperWithLongS.

Definition longSConfig : MockApiConfig :=
  {| apiRoutePrefix := "/api";
     dbFile := configFileName;
     dbDataPath := "data.orders";
     routes := [(longSKey, MArray [PString "/orders"])];
     otherProps := [("data", JObject [("orders", orders)])] |}.

(** A guarded rule that allows only [a] and follows [cb]. *)
Definition strictWithCallback : PostApi :=
  ordersRule [("a", false)] true (Some callback).

End Demo.

(** * Properties *)

(** ** Letter case *)

Lemma upper_ascii_idempotent (a : ascii) :
  upper_ascii (upper_ascii a) = upper_ascii a.
Proof.
  destruct a as [[] [] [] [] [] [] [] []]; reflexivity.
Qed.

Lemma lower_upper_ascii (a : ascii) :
  is_lower a = true -> lower_ascii (upper_ascii a) = a.
Proof.
  destruct a as [[] [] [] [] [] [] [] []]; intros H;
    first [ reflexivity | discriminate H ].
Qed.

Lemma upper_ascii_fixed (a : ascii) :
  is_lower a = false -> upper_ascii a = a.
Proof.
  unfold upper_ascii. intros ->. reflexivity.
Qed.

Lemma upper_ascii_not_lower (a : ascii) :
  is_lower (upper_ascii a) = false.
Proof.
  destruct a as [[] [] [] [] [] [] [] []]; reflexivity.
Qed.

Lemma upper_ascii_eq_iff (a b : ascii) :
  upper_ascii a = upper_ascii b <-> same_char_nocase a b.
Proof.
  split.
  - intros H. unfold same_char_nocase.
    destruct (is_lower a) eqn:La; destruct (is_lower b) eqn:Lb.
    + left. rewrite <- (lower_upper_ascii a La), <- (lower_upper_ascii b Lb).
      now rewrite H.
    + right; left. split; [reflexivity|].
      now rewrite H, (upper_ascii_fixed b Lb).
    + right; right. split; [reflexivity|].
      now rewrite <- H, (upper_ascii_fixed a La).
    + left. now rewrite <- (upper_ascii_fixed a La), <- (upper_ascii_fixed b Lb).
  - intros [-> | [[_ ->] | [_ ->]]];
      now rewrite ?upper_ascii_idempotent.
Qed.

Lemma asciiUpperCase_eq_iff (s t : string) :
  asciiUpperCase s = asciiUpperCase t <-> ascii_eq_nocase s t.
Proof.
  split.
  - revert t. induction s as [|a s IH]; intros [|b t] H; simpl in H;
      try discriminate H.
    + constructor.
    + injection H as Hc Hs. constructor.
      * now apply upper_ascii_eq_iff.
      * now apply IH.
  - induction 1 as [|a b s t Hc _ IH]; simpl.
    + reflexivity.
    + f_equal; [now apply upper_ascii_eq_iff | exact IH].
Qed.

Lemma toUpperCase_eq_iff {env : Collaborators} (s t : string) :
  toUpperCase s = toUpperCase t <-> eq_nocase s t.
Proof.
  unfold eq_nocase. tauto.
Qed.

Lemma method_test_true {env : Collaborators} (key m : string) :
  eq_nocase key m -> String.eqb (toUpperCase key) (toUpperCase m) = true.
Proof.
  intros H. apply String.eqb_eq. now apply toUpperCase_eq_iff.
Qed.

Lemma method_test_false {env : Collaborators} (key m : string) :
  ~ eq_nocase key m -> String.eqb (toUpperCase key) (toUpperCase m) = false.
Proof.
  intros H. apply String.eqb_neq. intros E. apply H. now apply toUpperCase_eq_iff.
Qed.

(** In the example environment two strings are equal up to case when they
    are so character by character. *)
Lemma demo_eq_nocase (remote : Demo.Remote) (s t : string) :
  eq_nocase (env := Demo.environment remote) s t <-> ascii_eq_nocase s t.
Proof.
  unfold eq_nocase. simpl. apply asciiUpperCase_eq_iff.
Qed.

(** A route declared under [post] serves the method [POST]. *)
Example post_serves_POST : eq_nocase (env := Demo.offline) "post" "POST".
Proof.
  reflexivity.
Qed.

(** ** Arrays of strings *)

Lemma find_eq_some (k e : string) (arr : list string) :
  find_eq k arr = Some e -> e = k /\ In k arr.
Proof.
  unfold find_eq. intros H. apply find_some in H as [Hin He].
  apply String.eqb_eq in He. subst e. now split.
Qed.

Lemma find_eq_none (k : string) (arr : list string) :
  find_eq k arr = None <-> among arr k = false.
Proof.
  unfold find_eq, among. induction arr as [|e arr IH]; simpl.
  - tauto.
  - rewrite (String.eqb_sym k e). destruct (String.eqb e k); simpl.
    + split; discriminate.
    + exact IH.
Qed.

(** The test the controller runs on [find] agrees with membership, except
    for the empty string, which is falsy even when it is found. *)
Lemma truthy_found_among (k : string) (arr : list string) :
  k <> "" -> truthy_found (find_eq k arr) = among arr k.
Proof.
  intros Hk. destruct (find_eq k arr) as [e|] eqn:E.
  - destruct (find_eq_some _ _ E) as [-> Hin]. simpl.
    apply String.eqb_neq in Hk. rewrite Hk. simpl. symmetry.
    unfold among. apply existsb_exists. exists k. split; [exact Hin|].
    apply String.eqb_refl.
  - simpl. symmetry. now apply find_eq_none.
Qed.

Lemma truthy_found_empty (arr : list string) :
  truthy_found (find_eq "" arr) = false.
Proof.
  destruct (find_eq "" arr) as [e|] eqn:E; [|reflexivity].
  destruct (find_eq_some _ _ E) as [-> _]. reflexivity.
Qed.

Lemma nonEmpty_false {A : Type} (l : list A) : nonEmpty l = false <-> l = [].
Proof.
  destruct l; simpl; split; intros H; try reflexivity; discriminate H.
Qed.

Lemma nonEmpty_true {A : Type} (l : list A) : nonEmpty l = true <-> l <> [].
Proof.
  destruct l as [|a l]; simpl; split; intros H.
  - discriminate H.
  - now contradiction H.
  - discriminate.
  - reflexivity.
Qed.

(** ** The scan *)

Section Resolution.

Context {env : Collaborators}.

Variable configData : MockApiConfig.
Variable params : Params.
Variable requestBody : JRecord.

Lemma checkBody_trace (p : PostApi) (t : list Event) :
  checkBody p requestBody t = (outcome (checkBody p requestBody), t).
Proof.
  unfold outcome, checkBody, bind, ret, throw.
  destruct (restrictedBody p);
    repeat match goal with
           | |- context [if ?b then _ else _] => destruct b
           end; reflexivity.
Qed.

Lemma getRequestedData_trace (u1 u2 : string) (t : list Event) :
  getRequestedData configData u1 u2 t
  = (outcome (getRequestedData configData u1 u2), t).
Proof.
  unfold outcome, getRequestedData, ret, throw.
  destruct (String.eqb _ _); [reflexivity|].
  destruct (getRawFile _); [reflexivity|].
  destruct (JSON_parse _); reflexivity.
Qed.

Lemma orNotFound_trace (d : option JValue) (t : list Event) :
  orNotFound d t = (outcome (orNotFound d), t).
Proof.
  unfold outcome, orNotFound, ret, throw.
  destruct d as [v|]; [destruct (truthy v)|]; reflexivity.
Qed.

(** The body check throws nothing but a [BadRequestException]. *)
Lemma checkBody_throws (p : PostApi) (e : Exception) :
  outcome (checkBody p requestBody) = Throw e ->
  exists body, e = BadRequestException body.
Proof.
  unfold outcome, checkBody, bind, ret, throw.
  destruct (restrictedBody p);
    repeat match goal with
           | |- context [if ?b then _ else _] => destruct b
           end; simpl; intros H; inversion H; eauto.
Qed.

(** Entries whose key is not the request's method are stepped over. *)
Lemma routesLoop_skip (m : string) (u1 u2 : string)
    (before rest : list (string * MethodConfig)) (found : bool) :
  (forall k, In k (Object_keys before) -> ~ eq_nocase k m) ->
  routesLoop configData params requestBody (toUpperCase m) u1 u2 (before ++ rest) found
  = routesLoop configData params requestBody (toUpperCase m) u1 u2 rest found.
Proof.
  induction before as [|[k c] before IH]; intros H; simpl.
  - reflexivity.
  - rewrite method_test_false by (apply H; now left). simpl.
    apply IH. intros k' Hk'. apply H. now right.
Qed.

(** Rules that do not match, and elements that are no rules, are stepped
    over. *)
Lemma scanRules_skip (extendedPath u1 u2 : string) (earlier rest : list PathConfig) :
  Forall (passedOver configData extendedPath) earlier ->
  scanRules configData extendedPath requestBody u1 u2 (earlier ++ rest)
  = scanRules configData extendedPath requestBody u1 u2 rest.
Proof.
  induction 1 as [|r earlier Hr _ IH]; simpl.
  - reflexivity.
  - destruct r as [s|p|v]; unfold passedOver in Hr; simpl in Hr.
    + now rewrite Hr.
    + now rewrite Hr.
    + exact IH.
Qed.

(** A rule whose path matches ends the scan. *)
Lemma scanRules_commit (r : PathConfig) (later : list PathConfig) :
  pathMatches configData (normalizePath params.(param0)) r ->
  scanRules configData (normalizePath params.(param0)) requestBody
    (repoRootUrl1 params) (repoRootUrl2 params) (r :: later)
  = commitRule configData params requestBody r.
Proof.
  intros [s [Hs Hm]]. destruct r as [s'|p|v]; simpl in *.
  - injection Hs as ->. now rewrite Hm.
  - injection Hs as <-. now rewrite Hm.
  - discriminate Hs.
Qed.

(** The resolution of a request is the commitment to the rule it selects. *)
Lemma resolve_selects (req : Request) (r : PathConfig) :
  selects configData params req r ->
  resolve configData params requestBody req
  = commitRule configData params requestBody r.
Proof.
  intros (before & key & earlier & later & after & Hroutes & Hbefore & Hkey & Hearlier & Hr).
  unfold resolve. rewrite Hroutes, routesLoop_skip by exact Hbefore.
  simpl. rewrite method_test_true by exact Hkey. simpl.
  rewrite scanRules_skip by exact Hearlier.
  now apply scanRules_commit.
Qed.

(** [getRepoPage] is the resolution against the configuration it loads. *)
Lemma getRepoPage_resolve (req : Request) (rawFile : string) :
  getRawFile
    [ {| url := repoRootUrl1 params ++ "/" ++ configFileName; headers := [] |};
      {| url := repoRootUrl2 params ++ "/" ++ configFileName;
         headers := [("Accept", "application/vnd.github.raw")] |} ]
  = RawData rawFile ->
  loadConfig rawFile = ([], configData) ->
  getRepoPage params requestBody req = resolve configData params requestBody req.
Proof.
  intros Hraw Hload. unfold getRepoPage. now rewrite Hraw, Hload.
Qed.


(** A rule whose template [pathToRegexp] refuses ends the scan with the
    error of the compilation. *)
Lemma scanRules_uncompilable (extendedPath u1 u2 : string) (r : PathConfig)
    (later : list PathConfig) (s : string) (e : NativeError) (t : list Event) :
  rulePath r = Some s ->
  matches configData s extendedPath = inl e ->
  scanRules configData extendedPath requestBody u1 u2 (r :: later) t
  = (Throw (raise e), t).
Proof.
  intros Hs Hm. destruct r as [s'|p|v]; simpl in *.
  - injection Hs as ->. now rewrite Hm.
  - injection Hs as ->. now rewrite Hm.
  - discriminate Hs.
Qed.

(** An element that is no rule leaves the scan as it is. *)
Lemma scanRules_non_rule (extendedPath u1 u2 : string)
    (earlier later : list PathConfig) (v : JValue) :
  scanRules configData extendedPath requestBody u1 u2 (earlier ++ POther v :: later)
  = scanRules configData extendedPath requestBody u1 u2 (earlier ++ later).
Proof.
  induction earlier as [|r earlier IH]; simpl.
  - reflexivity.
  - now rewrite IH.
Qed.

(** A simple rule that is selected returns the truthy value that
    [getRequestedData] hands back. *)
Lemma simple_rule_returns (req : Request) (s : string) (data : JValue)
    (t : list Event) :
  selects configData params req (PString s) ->
  outcome (getRequestedData configData (repoRootUrl1 params) (repoRootUrl2 params))
  = Return (Some data) ->
  truthy data = true ->
  resolve configData params requestBody req t = (Return data, t).
Proof.
  intros Hsel Hdata Htruthy. rewrite (resolve_selects Hsel). simpl.
  unfold simpleRule, bind. rewrite getRequestedData_trace, Hdata.
  unfold orNotFound. now rewrite Htruthy.
Qed.

End Resolution.

(** ** The body contract *)

Lemma getProp_in_keys {A : Type} (o : list (string * A)) (k : string) (v : A) :
  getProp o k = Some v -> In k (Object_keys o).
Proof.
  induction o as [|[k' v'] o IH]; simpl; [discriminate|].
  destruct (String.eqb k' k) eqn:E.
  - apply String.eqb_eq in E. now left.
  - intros H. right. now apply IH.
Qed.

Lemma among_true (keys : list string) (k : string) :
  among keys k = true <-> In k keys.
Proof.
  unfold among. rewrite existsb_exists. split.
  - intros [x [Hin Hx]]. apply String.eqb_eq in Hx. now subst.
  - intros Hin. exists k. split; [exact Hin | apply String.eqb_refl].
Qed.

Lemma among_false (keys : list string) (k : string) :
  among keys k = false <-> ~ In k keys.
Proof.
  rewrite <- among_true. destruct (among keys k); split; intros H;
    solve [ discriminate | reflexivity | intros E; discriminate E | now contradiction H ].
Qed.

(** Apart from a field with an empty name, the controller collects the
    missing fields of the specification. *)
Lemma missingFields_spec (p : PostApi) (requestBody : JRecord) :
  ~ In "" (Object_keys (declaredFields p)) ->
  missingFields p (Object_keys (declaredFields p)) (Object_keys requestBody)
  = spec_missing (declaredFields p) requestBody.
Proof.
  intros Hne. unfold missingFields, spec_missing. apply filter_ext_in.
  intros f Hf. unfold declared_true. fold (declaredFields p).
  assert (Hf' : f <> "") by (intros ->; now apply Hne).
  rewrite (truthy_found_among _ Hf').
  destruct (getProp (declaredFields p) f) as [[|]|]; reflexivity.
Qed.

(** Apart from an empty key that is both declared and sent, the controller
    collects the disallowed keys of the specification. *)
Lemma notAllowedFields_spec (declared : list (string * bool)) (requestBody : JRecord) :
  ~ (In "" (Object_keys declared) /\ In "" (Object_keys requestBody)) ->
  notAllowedFields (Object_keys declared) (Object_keys requestBody)
  = spec_disallowed declared requestBody.
Proof.
  intros Hne. unfold notAllowedFields, spec_disallowed. apply filter_ext_in.
  intros k Hk. destruct (String.eqb k "") eqn:E.
  - apply String.eqb_eq in E. subst k. rewrite truthy_found_empty.
    symmetry. apply negb_true_iff, among_false. intros Hd. apply Hne. now split.
  - apply String.eqb_neq in E. now rewrite (truthy_found_among _ E).
Qed.

Lemma spec_missing_in (declared : list (string * bool)) (requestBody : JRecord)
    (f : string) :
  In f (spec_missing declared requestBody)
  <-> getProp declared f = Some true /\ ~ In f (Object_keys requestBody).
Proof.
  unfold spec_missing. rewrite filter_In. split.
  - intros [_ H]. destruct (getProp declared f) as [[|]|]; try discriminate H.
    split; [reflexivity|]. apply among_false. now apply negb_true_iff.
  - intros [Hd Hb]. split; [exact (getProp_in_keys _ _ Hd)|].
    rewrite Hd. apply negb_true_iff. now apply among_false.
Qed.

Lemma spec_disallowed_in (declared : list (string * bool)) (requestBody : JRecord)
    (k : string) :
  In k (spec_disallowed declared requestBody)
  <-> In k (Object_keys requestBody) /\ ~ In k (Object_keys declared).
Proof.
  unfold spec_disallowed. rewrite filter_In, negb_true_iff, among_false. tauto.
Qed.

(** The outcome of the body check, in the words of the specification, for
    a contract without an empty field name. *)
Lemma checkBody_outcome (p : PostApi) (requestBody : JRecord) :
  ~ In "" (Object_keys (declaredFields p)) ->
  outcome (checkBody p requestBody)
  = if p.(restrictedBody) && nonEmpty (spec_disallowed (declaredFields p) requestBody)
    then Throw (BadRequestException
                  (NotAllowedFields (spec_disallowed (declaredFields p) requestBody)))
    else if nonEmpty (spec_missing (declaredFields p) requestBody)
         then Throw (BadRequestException
                       (MandatoryFields (spec_missing (declaredFields p) requestBody)))
         else Return tt.
Proof.
  intros Hne. unfold outcome, checkBody, bind, ret, throw.
  fold (declaredFields p).
  rewrite missingFields_spec by exact Hne.
  rewrite notAllowedFields_spec by tauto.
  destruct (restrictedBody p); simpl.
  - destruct (nonEmpty (spec_disallowed _ _)); simpl; [reflexivity|].
    destruct (nonEmpty (spec_missing _ _)); reflexivity.
  - destruct (nonEmpty (spec_missing _ _)); reflexivity.
Qed.

(** ** Deep paths *)

Lemma walk_node_at (segs : list string) (root v : JValue) :
  walk segs root = Some v <-> node_at segs root v.
Proof.
  split.
  - revert root. induction segs as [|seg segs IH]; simpl; intros root H.
    + injection H as ->. constructor.
    + destruct (child seg root) as [c|] eqn:E; [|discriminate H].
      econstructor; [exact E | now apply IH].
  - induction 1 as [v | seg rest v c w Hc _ IH]; simpl.
    + reflexivity.
    + now rewrite Hc.
Qed.

Lemma walk_none (segs : list string) (root : JValue) :
  walk segs root = None <-> forall v, ~ node_at segs root v.
Proof.
  split.
  - intros H v Hv. apply walk_node_at in Hv. congruence.
  - intros H. destruct (walk segs root) as [v|] eqn:E; [|reflexivity].
    apply walk_node_at in E. now contradiction (H v).
Qed.

(** ** Reading a member *)

Lemma readMember_own (o : JRecord) (k : string) (v : JValue) :
  getProp o k = Some v -> readMember o k = Own v.
Proof.
  unfold readMember. now intros ->.
Qed.

Lemma readMember_own_inv (o : JRecord) (k : string) (v : JValue) :
  readMember o k = Own v -> getProp o k = Some v.
Proof.
  unfold readMember. destruct (getProp o k) as [w|].
  - now intros [= ->].
  - destruct (existsb _ _); discriminate.
Qed.

Lemma readMember_missing (o : JRecord) (k : string) :
  getProp o k = None -> ~ In k objectPrototype -> readMember o k = Missing.
Proof.
  unfold readMember. intros -> Hk. fold (among objectPrototype k).
  apply among_false in Hk. now rewrite Hk.
Qed.

(** ** After the path has matched *)

Section Commitment.

Context {env : Collaborators}.

Variable configData : MockApiConfig.
Variable requestBody : JRecord.

Lemma orNotFound_falsy (d : option JValue) (t : list Event) :
  truthy_opt d = false -> orNotFound d t = (Throw (NotFoundException None), t).
Proof.
  unfold orNotFound, throw. destruct d as [v|]; simpl; [intros ->|]; reflexivity.
Qed.

(** A lookup that fails on both candidates, or an extraction that finds no
    node, hands a falsy value back to the scan. *)
Lemma getRequestedData_failure (u1 u2 : string) :
  configData.(dbFile) <> configFileName ->
  (exists errors,
      getRawFile (dataFileCandidates configData u1 u2) = RawErrors errors)
  \/ (exists rawData document,
         getRawFile (dataFileCandidates configData u1 u2) = RawData rawData
         /\ JSON_parse rawData = Some document
         /\ getSubRecordFromRoot configData.(dbDataPath) document = None) ->
  exists d, outcome (getRequestedData configData u1 u2) = Return d
            /\ truthy_opt d = false.
Proof.
  intros Hfile H. unfold outcome, getRequestedData.
  apply String.eqb_neq in Hfile. rewrite Hfile.
  destruct H as [[errors ->] | (rawData & document & -> & Hparse & Hsub)].
  - exists (Some JNull). split; reflexivity.
  - rewrite Hparse. exists None. split; [now rewrite Hsub | reflexivity].
Qed.

(** Once the body is accepted and the data is found, what is left of a
    guarded rule is its notification. *)
Lemma guardedRule_accepted (p : PostApi) (u1 u2 : string) (data : JValue)
    (t : list Event) :
  outcome (checkBody p requestBody) = Return tt ->
  outcome (getRequestedData configData u1 u2) = Return (Some data) ->
  truthy data = true ->
  guardedRule configData p requestBody u1 u2 t
  = match scheduleIfAsked p requestBody t with
    | (Return _, t') => (Return data, t')
    | (Throw e, t') => (Throw e, t')
    end.
Proof.
  intros Hcheck Hdata Htruthy. unfold guardedRule, bind.
  rewrite checkBody_trace, Hcheck, getRequestedData_trace, Hdata.
  unfold orNotFound at 1. rewrite Htruthy. reflexivity.
Qed.

Lemma scheduleIfAsked_armed (p : PostApi) (policy : ScheduleNotification)
    (target : JValue) (href : string) (t : list Event) :
  p.(scheduleNotification) = Some policy ->
  getProp requestBody policy.(followProp) = Some target ->
  truthy target = true ->
  new_URL target = Some href ->
  scheduleIfAsked p requestBody t
  = (Return tt,
     (t ++ [SetTimeout (notificationCall policy href)
              (policy.(timeoutInSecond) * 1000)%float])%list).
Proof.
  intros Hp Hb Ht Hu. unfold scheduleIfAsked.
  now rewrite Hp, (readMember_own _ _ Hb), Ht, Hu.
Qed.

Lemma scheduleIfAsked_malformed (p : PostApi) (policy : ScheduleNotification)
    (target : JValue) (t : list Event) :
  p.(scheduleNotification) = Some policy ->
  getProp requestBody policy.(followProp) = Some target ->
  truthy target = true ->
  new_URL target = None ->
  scheduleIfAsked p requestBody t = (Throw (TypeError "Invalid URL"), t).
Proof.
  intros Hp Hb Ht Hu. unfold scheduleIfAsked.
  now rewrite Hp, (readMember_own _ _ Hb), Ht, Hu.
Qed.

Lemma scheduleIfAsked_not_armed (p : PostApi) (t : list Event) :
  ~ armed p requestBody -> snd (scheduleIfAsked p requestBody t) = t.
Proof.
  intros Hn. unfold scheduleIfAsked.
  destruct (scheduleNotification p) as [policy|] eqn:Hp; [|reflexivity].
  destruct (readMember requestBody (followProp policy)) as [target| |] eqn:Hb;
    [|reflexivity ..].
  destruct (truthy target) eqn:Ht; [|reflexivity].
  destruct (new_URL target) as [href|] eqn:Hu; [|reflexivity].
  contradiction Hn. exists policy, target, href.
  repeat split; try assumption. now apply readMember_own_inv.
Qed.

Lemma trace_grows (t : list Event) (e : Event) : (t ++ [e])%list <> t.
Proof.
  intros H. apply (f_equal (@List.length Event)) in H.
  rewrite length_app in H. simpl in H. lia.
Qed.

End Commitment.

(** ** Selection in the example configuration *)

Lemma get_is_not_POST (k : string) :
  In k (Object_keys [("get", MArray [PString "/users"])]) ->
  ~ eq_nocase (env := Demo.offline) k Demo.post.(method).
Proof.
  intros [<- | []] H. vm_compute in H. discriminate H.
Defined.

(** In the example configuration a [POST] on [api/orders] selects the first
    rule of the [post] list that is on [/orders]. *)
Lemma demo_selects (remote : Demo.Remote) (file : string)
    (earlier later : list PathConfig) (r : PathConfig) :
  Forall (passedOver (env := Demo.environment remote)
            (Demo.config (earlier ++ r :: later) file)
            (normalizePath (Collaborators := Demo.environment remote)
               Demo.params.(param0))) earlier ->
  pathMatches (env := Demo.environment remote)
    (Demo.config (earlier ++ r :: later) file)
    (normalizePath (Collaborators := Demo.environment remote)
       Demo.params.(param0)) r ->
  selects (env := Demo.environment remote)
    (Demo.config (earlier ++ r :: later) file) Demo.params Demo.post r.
Proof.
  intros He Hr.
  exists [("get", MArray [PString "/users"])], "post", earlier, later, [].
  split; [reflexivity|].
  split; [exact get_is_not_POST|].
  split; [exact post_serves_POST|].
  split; assumption.
Defined.

(** ** Claims *)

Section Claims.

Context {env : Collaborators}.

(** C1.  When the request's method matches a routes key, the rules of that
    key's list are tested in declared order and the first rule whose compiled
    template matches the request path commits the resolution: the outcome is
    the one of that rule whatever rules follow it, and when that rule is a
    guarded rule whose body check fails, the resolution stops with the
    [BadRequestException] of the check instead of trying a later rule. *)
Theorem first_match_commits
    (configData : MockApiConfig) (params : Params) (requestBody : JRecord)
    (req : Request) (before after : list (string * MethodConfig)) (key : string)
    (earlier later : list PathConfig) (r : PathConfig) :
  configData.(routes) = (before ++ (key, MArray (earlier ++ r :: later)) :: after)%list ->
  (forall k, In k (Object_keys before) -> ~ eq_nocase k req.(method)) ->
  eq_nocase key req.(method) ->
  Forall (passedOver configData (normalizePath params.(param0))) earlier ->
  pathMatches configData (normalizePath params.(param0)) r ->
  resolve configData params requestBody req
  = commitRule configData params requestBody r
  /\ (forall later',
         scanRules configData (normalizePath params.(param0)) requestBody
           (repoRootUrl1 params) (repoRootUrl2 params) (earlier ++ r :: later')
         = commitRule configData params requestBody r)
  /\ (forall p e,
         r = PPostApi p ->
         outcome (checkBody p requestBody) = Throw e ->
         (exists body, e = BadRequestException body)
         /\ forall t, resolve configData params requestBody req t = (Throw e, t)).
Proof.
  intros Hroutes Hbefore Hkey Hearlier Hr.
  assert (Hsel : selects configData params req r).
  { exists before, key, earlier, later, after. repeat split; assumption. }
  split; [|split].
  - now apply resolve_selects.
  - intros later'. rewrite scanRules_skip by exact Hearlier.
    now apply scanRules_commit.
  - intros p e -> He. split.
    + exact (checkBody_throws _ _ He).
    + intros t. rewrite (resolve_selects requestBody Hsel). simpl.
      unfold guardedRule, bind. now rewrite checkBody_trace, He.
Qed.

(** C2.  When no key of [routes] equals the request's method up to letter
    case, the resolution throws [MethodNotAllowedException], whatever the
    path and the body. *)
Theorem method_not_matched
    (configData : MockApiConfig) (params : Params) (requestBody : JRecord)
    (req : Request) (t : list Event) :
  (forall k, In k (Object_keys configData.(routes)) -> ~ eq_nocase k req.(method)) ->
  resolve configData params requestBody req t = (Throw MethodNotAllowedException, t).
Proof.
  intros H. unfold resolve.
  rewrite <- (app_nil_r configData.(routes)).
  rewrite routesLoop_skip by exact H. reflexivity.
Qed.

(** C9.  When the value under the first routes key that equals the request's
    method up to letter case is not an array, the resolution logs the defect
    and throws [InternalServerErrorException], which is neither the
    method-not-allowed nor a not-found outcome. *)
Theorem invalid_rule_list
    (configData : MockApiConfig) (params : Params) (requestBody : JRecord)
    (req : Request) (before after : list (string * MethodConfig)) (key : string)
    (v : JValue) (t : list Event) :
  configData.(routes) = (before ++ (key, MNotArray v) :: after)%list ->
  (forall k, In k (Object_keys before) -> ~ eq_nocase k req.(method)) ->
  eq_nocase key req.(method) ->
  resolve configData params requestBody req t
  = (Throw InternalServerErrorException,
     (t ++ [LogError ("Invalid data type for method config. expected Array. found "
                        ++ typeof v)])%list)
  /\ fst (resolve configData params requestBody req t) <> Throw MethodNotAllowedException
  /\ forall m, fst (resolve configData params requestBody req t)
               <> Throw (NotFoundException m).
Proof.
  intros Hroutes Hbefore Hkey.
  assert (E : resolve configData params requestBody req t
              = (Throw InternalServerErrorException,
                 (t ++ [LogError ("Invalid data type for method config. expected Array. found "
                                    ++ typeof v)])%list)).
  { unfold resolve. rewrite Hroutes, routesLoop_skip by exact Hbefore.
    simpl. rewrite method_test_true by exact Hkey. reflexivity. }
  rewrite E. simpl. repeat split; [discriminate | intros m; discriminate].
Qed.

(** C10.  An element of a rule list that is neither a string nor a
    [PostApi] is stepped over: the scan of a list that holds it is the scan
    of the list without it, and so is the loop over the routes, in outcome
    and in events. *)
Theorem non_rule_skipped
    (configData : MockApiConfig) (params : Params) (requestBody : JRecord)
    (requestMethod u1 u2 : string) (earlier later : list PathConfig) (v : JValue) :
  (forall extendedPath,
      scanRules configData extendedPath requestBody u1 u2 (earlier ++ POther v :: later)
      = scanRules configData extendedPath requestBody u1 u2 (earlier ++ later))
  /\ (forall before after key found,
         routesLoop configData params requestBody requestMethod u1 u2
           (before ++ (key, MArray (earlier ++ POther v :: later)) :: after) found
         = routesLoop configData params requestBody requestMethod u1 u2
             (before ++ (key, MArray (earlier ++ later)) :: after) found).
Proof.
  split.
  - intros extendedPath. apply scanRules_non_rule.
  - intros before after key found.
    induction before as [|[k c] before IH]; simpl.
    + now rewrite scanRules_non_rule.
    + now rewrite IH.
Qed.

(** C3 (amended).  For a guarded rule that is selected, whose declared field
    names are not empty and whose restricted-body check does not fail
    ([restrictedBody] is false, or the body has no undeclared key): the
    missing fields are exactly the declared fields whose flag is [true] and
    which are not among the keys of the body; when there is one, the
    resolution throws a [BadRequestException] that reports exactly those
    names; when there is none, the body check passes. *)
Theorem mandatory_fields_reported
    (configData : MockApiConfig) (params : Params) (requestBody : JRecord)
    (req : Request) (p : PostApi) :
  selects configData params req (PPostApi p) ->
  ~ In "" (Object_keys (declaredFields p)) ->
  (p.(restrictedBody) = false
   \/ spec_disallowed (declaredFields p) requestBody = []) ->
  (forall f, In f (spec_missing (declaredFields p) requestBody)
             <-> getProp (declaredFields p) f = Some true
                 /\ ~ In f (Object_keys requestBody))
  /\ (spec_missing (declaredFields p) requestBody <> [] ->
      forall t,
        resolve configData params requestBody req t
        = (Throw (BadRequestException
                    (MandatoryFields (spec_missing (declaredFields p) requestBody))),
           t))
  /\ (spec_missing (declaredFields p) requestBody = [] ->
      outcome (checkBody p requestBody) = Return tt).
Proof.
  intros Hsel Hne Hrestricted.
  assert (Hcheck : outcome (checkBody p requestBody)
                   = if nonEmpty (spec_missing (declaredFields p) requestBody)
                     then Throw (BadRequestException
                                   (MandatoryFields
                                      (spec_missing (declaredFields p) requestBody)))
                     else Return tt).
  { rewrite checkBody_outcome by exact Hne.
    destruct Hrestricted as [-> | ->]; [reflexivity|].
    now rewrite andb_false_r. }
  split; [|split].
  - intros f. apply spec_missing_in.
  - intros Hmissing t. apply nonEmpty_true in Hmissing.
    rewrite Hmissing in Hcheck.
    rewrite (resolve_selects requestBody Hsel). simpl.
    unfold guardedRule, bind. now rewrite checkBody_trace, Hcheck.
  - intros Hnone. now rewrite Hnone in Hcheck.
Qed.

(** C5 (amended).  For a guarded rule that is selected, whose body check
    passes and whose data is found: a timer is armed if and only if the rule
    declares a policy, the body holds a truthy value at [followProp] and that
    value reads as a URL; the one timer then armed fires after
    [timeoutInSecond * 1000] milliseconds a call to that URL with the
    policy's method ([GET] by default) and a timeout of 5000 milliseconds;
    and a body without the [followProp] field arms nothing, and has the data
    returned unless [followProp] names a member that every object inherits
    from [Object.prototype]. *)
Theorem notification_armed_iff
    (configData : MockApiConfig) (params : Params) (requestBody : JRecord)
    (req : Request) (p : PostApi) (data : JValue) (t : list Event) :
  selects configData params req (PPostApi p) ->
  outcome (checkBody p requestBody) = Return tt ->
  outcome (getRequestedData configData (repoRootUrl1 params) (repoRootUrl2 params))
  = Return (Some data) ->
  truthy data = true ->
  (armed p requestBody
   <-> exists call delay,
         snd (resolve configData params requestBody req t)
         = (t ++ [SetTimeout call delay])%list)
  /\ (forall policy target href,
         p.(scheduleNotification) = Some policy ->
         getProp requestBody policy.(followProp) = Some target ->
         truthy target = true ->
         new_URL target = Some href ->
         resolve configData params requestBody req t
         = (Return data,
            (t ++ [SetTimeout (notificationCall policy href)
                     (policy.(timeoutInSecond) * 1000)%float])%list))
  /\ (~ armed p requestBody ->
      snd (resolve configData params requestBody req t) = t)
  /\ (forall policy,
         p.(scheduleNotification) = Some policy ->
         getProp requestBody policy.(followProp) = None ->
         snd (resolve configData params requestBody req t) = t
         /\ (~ In policy.(followProp) objectPrototype ->
             resolve configData params requestBody req t = (Return data, t))).
Proof.
  intros Hsel Hcheck Hdata Htruthy.
  assert (E : resolve configData params requestBody req t
              = match scheduleIfAsked p requestBody t with
                | (Return _, t') => (Return data, t')
                | (Throw e, t') => (Throw e, t')
                end).
  { rewrite (resolve_selects requestBody Hsel). simpl.
    now apply guardedRule_accepted. }
  assert (Harmed : forall policy target href,
             p.(scheduleNotification) = Some policy ->
             getProp requestBody policy.(followProp) = Some target ->
             truthy target = true ->
             new_URL target = Some href ->
             resolve configData params requestBody req t
             = (Return data,
                (t ++ [SetTimeout (notificationCall policy href)
                         (policy.(timeoutInSecond) * 1000)%float])%list)).
  { intros policy target href Hp Hb Ht Hu.
    now rewrite E, (@scheduleIfAsked_armed env requestBody p policy target href t Hp Hb Ht Hu). }
  assert (Hidle : ~ armed p requestBody ->
                  snd (resolve configData params requestBody req t) = t).
  { intros Hn. rewrite E. pose proof (@scheduleIfAsked_not_armed env requestBody p t Hn) as Hs.
    destruct (scheduleIfAsked p requestBody t) as [[[]|e] t']; exact Hs. }
  split; [|split; [|split]].
  - split.
    + intros (policy & target & href & Hp & Hb & Ht & Hu).
      rewrite (Harmed _ _ _ Hp Hb Ht Hu). simpl. eauto.
    + intros (call & delay & Hs).
      assert (Hgrown : snd (resolve configData params requestBody req t) <> t)
        by (rewrite Hs; apply trace_grows).
      destruct (scheduleNotification p) as [policy|] eqn:Hp.
      2:{ contradiction Hgrown. apply Hidle.
          intros (q & x & h & Hq & _). congruence. }
      destruct (getProp requestBody (followProp policy)) as [target|] eqn:Hb.
      2:{ contradiction Hgrown. apply Hidle.
          intros (q & x & h & Hq & Hx & _). congruence. }
      destruct (truthy target) eqn:Ht.
      2:{ contradiction Hgrown. apply Hidle.
          intros (q & x & h & Hq & Hx & Hy & _). congruence. }
      destruct (new_URL target) as [href|] eqn:Hu.
      2:{ contradiction Hgrown. apply Hidle.
          intros (q & x & h & Hq & Hx & Hy & Hz). congruence. }
      now exists policy, target, href.
  - exact Harmed.
  - exact Hidle.
  - intros policy Hp Hb. split.
    + apply Hidle. intros (q & x & h & Hq & Hx & _). congruence.
    + intros Hk. rewrite E. unfold scheduleIfAsked.
      now rewrite Hp, (readMember_missing _ Hb Hk).
Qed.

(** C6.  With an extraction that behaves as the specification describes,
    when [dbFile] is the name of the configuration file and [dbDataPath]
    leads to a node of the configuration document, [getRequestedData]
    returns that very node, and changes nothing on the way. *)
Theorem config_extraction_identity
    (configData : MockApiConfig) (u1 u2 : string) (node : JValue) (t : list Event) :
  (forall dataPath root,
      getSubRecordFromRoot dataPath root = subRecordFromRoot dataPath root) ->
  configData.(dbFile) = configFileName ->
  node_at (pathSegments configData.(dbDataPath)) (asRecord configData) node ->
  getRequestedData configData u1 u2 t = (Return (Some node), t).
Proof.
  intros Hmodel Hfile Hnode. unfold getRequestedData.
  rewrite Hfile, String.eqb_refl, Hmodel. unfold subRecordFromRoot, ret.
  apply walk_node_at in Hnode. now rewrite Hnode.
Qed.

(** C7.  For a rule that is selected (and whose body check passes, if it is
    a guarded rule) under a configuration whose data is in an external file:
    when the retrieval of that file fails on both candidates, or when the
    extraction at [dbDataPath] finds no node in the retrieved document, the
    resolution throws [NotFoundException]. *)
Theorem lookup_failure_not_found
    (configData : MockApiConfig) (params : Params) (requestBody : JRecord)
    (req : Request) (r : PathConfig) (t : list Event) :
  selects configData params req r ->
  bodyAccepted r requestBody ->
  configData.(dbFile) <> configFileName ->
  (exists errors,
      getRawFile (dataFileCandidates configData (repoRootUrl1 params)
                    (repoRootUrl2 params))
      = RawErrors errors)
  \/ (exists rawData document,
         getRawFile (dataFileCandidates configData (repoRootUrl1 params)
                       (repoRootUrl2 params))
         = RawData rawData
         /\ JSON_parse rawData = Some document
         /\ getSubRecordFromRoot configData.(dbDataPath) document = None) ->
  resolve configData params requestBody req t = (Throw (NotFoundException None), t).
Proof.
  intros Hsel Hbody Hfile Hfail.
  destruct (@getRequestedData_failure env configData _ _ Hfile Hfail) as (d & Hd & Hfalsy).
  rewrite (resolve_selects requestBody Hsel).
  destruct Hsel as (_ & _ & _ & _ & _ & _ & _ & _ & _ & s & Hs & _).
  destruct r as [s'|p|v]; simpl in *.
  - unfold simpleRule, bind. rewrite getRequestedData_trace, Hd.
    now apply orNotFound_falsy.
  - unfold guardedRule, bind.
    rewrite checkBody_trace, Hbody, getRequestedData_trace, Hd.
    now rewrite orNotFound_falsy.
  - discriminate Hs.
Qed.

(** C8.  For a guarded rule that is selected, whose body check passes and
    whose data is found: when the rule has a policy and the body holds at
    [followProp] a truthy value that does not read as a URL, the resolution
    ends with the [TypeError] of [new URL], which is no
    [BadRequestException], and arms nothing. *)
Theorem malformed_target_throws
    (configData : MockApiConfig) (params : Params) (requestBody : JRecord)
    (req : Request) (p : PostApi) (data : JValue)
    (policy : ScheduleNotification) (target : JValue) (t : list Event) :
  selects configData params req (PPostApi p) ->
  outcome (checkBody p requestBody) = Return tt ->
  outcome (getRequestedData configData (repoRootUrl1 params) (repoRootUrl2 params))
  = Return (Some data) ->
  truthy data = true ->
  p.(scheduleNotification) = Some policy ->
  getProp requestBody policy.(followProp) = Some target ->
  truthy target = true ->
  new_URL target = None ->
  resolve configData params requestBody req t = (Throw (TypeError "Invalid URL"), t)
  /\ forall body, fst (resolve configData params requestBody req t)
                  <> Throw (BadRequestException body).
Proof.
  intros Hsel Hcheck Hdata Htruthy Hp Hb Ht Hu.
  assert (E : resolve configData params requestBody req t
              = (Throw (TypeError "Invalid URL"), t)).
  { rewrite (resolve_selects requestBody Hsel). simpl.
    rewrite (@guardedRule_accepted env configData requestBody p _ _ data t Hcheck Hdata Htruthy).
    now rewrite (@scheduleIfAsked_malformed env requestBody p policy target t Hp Hb Ht Hu). }
  split; [exact E|]. intros body. rewrite E. discriminate.
Qed.

(** When [restrictedBody] is true and the empty key is not both declared
    and sent, the keys of the body that are not declared are reported, all of
    them and nothing else, before any missing field. *)
Lemma restricted_fields_reported
    (configData : MockApiConfig) (params : Params) (requestBody : JRecord)
    (req : Request) (p : PostApi) (t : list Event) :
  selects configData params req (PPostApi p) ->
  p.(restrictedBody) = true ->
  ~ (In "" (Object_keys (declaredFields p)) /\ In "" (Object_keys requestBody)) ->
  spec_disallowed (declaredFields p) requestBody <> [] ->
  resolve configData params requestBody req t
  = (Throw (BadRequestException
              (NotAllowedFields (spec_disallowed (declaredFields p) requestBody))),
     t).
Proof.
  intros Hsel Hrestricted Hne Hsome.
  rewrite (resolve_selects requestBody Hsel). simpl.
  unfold guardedRule, bind at 1. unfold checkBody, bind at 1.
  fold (declaredFields p). rewrite Hrestricted.
  rewrite notAllowedFields_spec by exact Hne.
  apply nonEmpty_true in Hsome. now rewrite Hsome.
Qed.

End Claims.

(** ** The shape of every resolution *)

Lemma truthy_found_true (k : string) (arr : list string) :
  truthy_found (find_eq k arr) = true <-> k <> "" /\ In k arr.
Proof.
  destruct (String.eqb k "") eqn:E.
  - apply String.eqb_eq in E. subst k. rewrite truthy_found_empty.
    split; [discriminate | intros [H _]; now contradiction H].
  - apply String.eqb_neq in E. rewrite (truthy_found_among _ E), among_true. tauto.
Qed.

Lemma filter_nil_iff {A : Type} (f : A -> bool) (l : list A) :
  filter f l = [] <-> forall x, In x l -> f x = false.
Proof.
  induction l as [|a l IH]; simpl.
  - split; [intros _ x [] | reflexivity].
  - destruct (f a) eqn:E.
    + split; [discriminate|]. intros H. rewrite (H a) in E by now left. discriminate E.
    + rewrite IH. split.
      * intros H x [<- | Hx]; [exact E | now apply H].
      * intros H x Hx. apply H. now right.
Qed.

(** The routes either hold no key that serves the method, or split at the
    first key that does. *)
Lemma routes_split {env : Collaborators} (m : string)
    (entries : list (string * MethodConfig)) :
  (forall k, In k (Object_keys entries) -> ~ eq_nocase k m)
  \/ exists before key c after,
       entries = (before ++ (key, c) :: after)%list
       /\ (forall k, In k (Object_keys before) -> ~ eq_nocase k m)
       /\ eq_nocase key m.
Proof.
  induction entries as [|[k c] entries IH].
  - left. intros k [].
  - destruct (String.eqb (toUpperCase k) (toUpperCase m)) eqn:E.
    + right. exists [], k, c, entries. split; [reflexivity|]. split.
      * intros k' [].
      * apply toUpperCase_eq_iff. now apply String.eqb_eq.
    + assert (Hk : ~ eq_nocase k m).
      { intros H. apply toUpperCase_eq_iff in H. apply String.eqb_neq in E.
        now contradiction E. }
      destruct IH as [Hnone | (before & key & c' & after & -> & Hb & Hkey)].
      * left. intros k' [<- | Hin]; [exact Hk | now apply Hnone].
      * right. exists ((k, c) :: before), key, c', after.
        split; [reflexivity|]. split; [|exact Hkey].
        intros k' [<- | Hin]; [exact Hk | now apply Hb].
Qed.

Section Shape.

Context {env : Collaborators}.

Variable configData : MockApiConfig.
Variable params : Params.
Variable requestBody : JRecord.

Lemma checkBody_throws_fields (p : PostApi) (e : Exception) :
  outcome (checkBody p requestBody) = Throw e -> thrownByScan e = true.
Proof.
  unfold outcome, checkBody, bind, ret, throw.
  destruct (restrictedBody p);
    repeat match goal with
           | |- context [if ?b then _ else _] => destruct b
           end; simpl; intros H; inversion H; reflexivity.
Qed.

Lemma getRequestedData_throws (u1 u2 : string) (e : Exception) :
  outcome (getRequestedData configData u1 u2) = Throw e -> e = SyntaxError.
Proof.
  unfold outcome, getRequestedData, ret, throw.
  destruct (String.eqb _ _); [discriminate|].
  destruct (getRawFile _); [discriminate|].
  destruct (JSON_parse _); [discriminate|].
  simpl. intros H. now inversion H.
Qed.

Lemma simpleRule_result (u1 u2 : string) (t : list Event) :
  scanResult configData u1 u2 t (simpleRule configData u1 u2 t).
Proof.
  unfold simpleRule, bind. rewrite getRequestedData_trace.
  destruct (outcome (getRequestedData configData u1 u2)) as [[d|]|e] eqn:Hd.
  - unfold orNotFound. destruct (truthy d) eqn:Ht.
    + right. exists d. repeat split; try assumption. now left.
    + left. eexists. split; reflexivity.
  - left. eexists. split; reflexivity.
  - left. exists e. split; [reflexivity|].
    now rewrite (getRequestedData_throws _ _ Hd).
Qed.

Lemma guardedRule_result (p : PostApi) (u1 u2 : string) (t : list Event) :
  scanResult configData u1 u2 t (guardedRule configData p requestBody u1 u2 t).
Proof.
  unfold guardedRule, bind. rewrite checkBody_trace.
  destruct (outcome (checkBody p requestBody)) as [[]|e] eqn:Hc.
  2:{ left. exists e. split; [reflexivity | exact (checkBody_throws_fields _ Hc)]. }
  rewrite getRequestedData_trace.
  destruct (outcome (getRequestedData configData u1 u2)) as [[d|]|e] eqn:Hd.
  - unfold orNotFound at 1. destruct (truthy d) eqn:Ht.
    + unfold ret at 1, scheduleIfAsked.
      destruct (scheduleNotification p) as [policy|];
        [|right; exists d; repeat split; try assumption; now left].
      destruct (readMember requestBody (followProp policy)) as [target| |];
        [|left; eexists; split; reflexivity
         |right; exists d; repeat split; try assumption; now left].
      destruct (truthy target);
        [|right; exists d; repeat split; try assumption; now left].
      destruct (new_URL target) as [href|].
      * right. exists d. repeat split; try assumption. right.
        unfold emit, ret. eauto.
      * left. eexists. split; reflexivity.
    + left. eexists. split; reflexivity.
  - left. eexists. split; reflexivity.
  - left. exists e. split; [reflexivity|].
    now rewrite (getRequestedData_throws _ _ Hd).
Qed.

Lemma scanRules_result (extendedPath u1 u2 : string) (rules : list PathConfig)
    (t : list Event) :
  scanResult configData u1 u2 t
    (scanRules configData extendedPath requestBody u1 u2 rules t).
Proof.
  induction rules as [|r rules IH]; simpl.
  - left. eexists. split; reflexivity.
  - destruct r as [s|p|v].
    + destruct (matches configData s extendedPath) as [e|[|]].
      * left. eexists. split; [reflexivity | now destruct e].
      * apply simpleRule_result.
      * exact IH.
    + destruct (matches configData (path p) extendedPath) as [e|[|]].
      * left. eexists. split; [reflexivity | now destruct e].
      * apply guardedRule_result.
      * exact IH.
    + exact IH.
Qed.

(** The three ways a resolution goes: no key serves the method, the first
    key that does holds no array, or it holds one and the scan decides. *)
Lemma resolve_cases (req : Request) (t : list Event) :
  ((forall k, In k (Object_keys configData.(routes)) -> ~ eq_nocase k req.(method))
   /\ resolve configData params requestBody req t
      = (Throw MethodNotAllowedException, t))
  \/ (exists before key v after,
         configData.(routes) = (before ++ (key, MNotArray v) :: after)%list
         /\ (forall k, In k (Object_keys before) -> ~ eq_nocase k req.(method))
         /\ eq_nocase key req.(method)
         /\ resolve configData params requestBody req t
            = (Throw InternalServerErrorException,
               (t ++ [LogError
                        ("Invalid data type for method config. expected Array. found "
                           ++ typeof v)])%list))
  \/ (exists before key rules after,
         configData.(routes) = (before ++ (key, MArray rules) :: after)%list
         /\ (forall k, In k (Object_keys before) -> ~ eq_nocase k req.(method))
         /\ eq_nocase key req.(method)
         /\ resolve configData params requestBody req t
            = scanRules configData (normalizePath params.(param0)) requestBody
                (repoRootUrl1 params) (repoRootUrl2 params) rules t
         /\ scanResult configData (repoRootUrl1 params) (repoRootUrl2 params) t
              (resolve configData params requestBody req t)).
Proof.
  unfold resolve.
  destruct (routes_split req.(method) configData.(routes))
    as [Hnone | (before & key & c & after & Hroutes & Hb & Hkey)].
  - left. split; [exact Hnone|].
    rewrite <- (app_nil_r configData.(routes)).
    now rewrite routesLoop_skip by exact Hnone.
  - right. rewrite Hroutes, routesLoop_skip by exact Hb. simpl.
    rewrite method_test_true by exact Hkey. simpl.
    destruct c as [rules|v].
    + right. exists before, key, rules, after.
      repeat split; try assumption. apply scanRules_result.
    + left. exists before, key, v, after. repeat split; assumption.
Qed.

End Shape.

(** ** More of the controller *)

(** The body check passes exactly when, under [restrictedBody], every key of
    the body is a declared field with a non-empty name, and every field
    declared [true] has a non-empty name and is a key of the body. *)
Lemma checkBody_accepts (p : PostApi) (requestBody : JRecord) :
  outcome (checkBody p requestBody) = Return tt
  <-> (p.(restrictedBody) = true ->
       forall k, In k (Object_keys requestBody) ->
                 k <> "" /\ In k (Object_keys (declaredFields p)))
      /\ (forall f, getProp (declaredFields p) f = Some true ->
                    f <> "" /\ In f (Object_keys requestBody)).
Proof.
  assert (Hmissing :
            missingFields p (Object_keys (declaredFields p)) (Object_keys requestBody) = []
            <-> forall f, getProp (declaredFields p) f = Some true ->
                          f <> "" /\ In f (Object_keys requestBody)).
  { unfold missingFields. rewrite filter_nil_iff. unfold declared_true.
    fold (declaredFields p). split.
    - intros H f Hf. apply truthy_found_true.
      specialize (H f (getProp_in_keys _ _ Hf)). rewrite Hf in H. simpl in H.
      now apply negb_false_iff in H.
    - intros H f _. destruct (getProp (declaredFields p) f) as [[|]|] eqn:Hf;
        try reflexivity.
      simpl. apply negb_false_iff, truthy_found_true. now apply H. }
  assert (Hnot :
            notAllowedFields (Object_keys (declaredFields p)) (Object_keys requestBody) = []
            <-> forall k, In k (Object_keys requestBody) ->
                          k <> "" /\ In k (Object_keys (declaredFields p))).
  { unfold notAllowedFields. rewrite filter_nil_iff. split.
    - intros H k Hk. apply truthy_found_true. apply negb_false_iff. now apply H.
    - intros H k Hk. apply negb_false_iff, truthy_found_true. now apply H. }
  unfold outcome, checkBody, bind, ret, throw. fold (declaredFields p).
  rewrite <- Hmissing, <- Hnot. clear Hmissing Hnot.
  destruct (restrictedBody p); simpl.
  - destruct (nonEmpty (notAllowedFields _ _)) eqn:Hn; simpl.
    + apply nonEmpty_true in Hn. split; [discriminate|].
      intros [H _]. now contradiction Hn; apply H.
    + apply nonEmpty_false in Hn.
      destruct (nonEmpty (missingFields _ _ _)) eqn:Hm; simpl.
      * apply nonEmpty_true in Hm. split; [discriminate|]. intros [_ H].
        now contradiction Hm.
      * apply nonEmpty_false in Hm. split; [|reflexivity]. intros _. now split.
  - destruct (nonEmpty (missingFields _ _ _)) eqn:Hm; simpl.
    + apply nonEmpty_true in Hm. split; [discriminate|]. intros [_ H].
      now contradiction Hm.
    + apply nonEmpty_false in Hm. split; [|reflexivity]. intros _.
      split; [discriminate | exact Hm].
Qed.

Section Further.

Context {env : Collaborators}.

(** X1.  [getRepoPage] throws a [BadRequestException] that carries
    configuration errors exactly when the configuration file cannot be
    fetched from either candidate, or when [loadConfig] reports errors on the
    fetched text; the resolution of the routes never produces one. *)
Theorem config_errors_iff
    (params : Params) (requestBody : JRecord) (req : Request)
    (errors : list string) (t : list Event) :
  fst (getRepoPage params requestBody req t)
  = Throw (BadRequestException (ConfigErrors errors))
  <-> getRawFile
        [ {| url := repoRootUrl1 params ++ "/" ++ configFileName; headers := [] |};
          {| url := repoRootUrl2 params ++ "/" ++ configFileName;
             headers := [("Accept", "application/vnd.github.raw")] |} ]
      = RawErrors errors
      \/ exists rawFile configData,
           getRawFile
             [ {| url := repoRootUrl1 params ++ "/" ++ configFileName; headers := [] |};
               {| url := repoRootUrl2 params ++ "/" ++ configFileName;
                  headers := [("Accept", "application/vnd.github.raw")] |} ]
           = RawData rawFile
           /\ loadConfig rawFile = (errors, configData)
           /\ errors <> [].
Proof.
  unfold getRepoPage.
  destruct (getRawFile _) as [configErrors|rawFile].
  - simpl. split.
    + intros H. left. now inversion H.
    + intros [H | (r & c & H & _)]; [now inversion H | discriminate H].
  - destruct (loadConfig rawFile) as [errs configData] eqn:Hload.
    destruct (nonEmpty errs) eqn:Hne.
    + simpl. split.
      * intros H. right. exists rawFile, configData. inversion H. subst.
        split; [reflexivity|]. split; [exact Hload|]. now apply nonEmpty_true.
      * intros [H | (r & c & Hr & Hl & _)]; [discriminate H|].
        inversion Hr. subst r. rewrite Hload in Hl. now inversion Hl.
    + split.
      * intros H. exfalso.
        destruct (resolve_cases configData params requestBody req t)
          as [[_ E] | [(b & k & v & a & _ & _ & _ & E)
                      | (b & k & rs & a & _ & _ & _ & _ & [(e & E & He) | (d & _ & _ & [E | (c & dl & E)])])]];
          rewrite E in H; simpl in H; try discriminate H.
        inversion H. subst e. discriminate He.
      * intros [H | (r & c & Hr & Hl & Hn)]; [discriminate H|].
        inversion Hr. subst r. rewrite Hload in Hl. inversion Hl. subst.
        apply nonEmpty_false in Hne. now contradiction Hn.
Qed.

(** X2.  When the first routes key that serves the method holds a list in
    which every element is passed over (no rule, or a template that does not
    match), the resolution throws the [NotFoundException] that names the
    normalized request path, and leaves no event. *)
Theorem no_rule_matched
    (configData : MockApiConfig) (params : Params) (requestBody : JRecord)
    (req : Request) (before after : list (string * MethodConfig)) (key : string)
    (rules : list PathConfig) (t : list Event) :
  configData.(routes) = (before ++ (key, MArray rules) :: after)%list ->
  (forall k, In k (Object_keys before) -> ~ eq_nocase k req.(method)) ->
  eq_nocase key req.(method) ->
  Forall (passedOver configData (normalizePath params.(param0))) rules ->
  resolve configData params requestBody req t
  = (Throw (NotFoundException
              (Some ("The requested entity was not found in the current location: "
                       ++ normalizePath params.(param0)))),
     t).
Proof.
  intros Hroutes Hbefore Hkey Hrules.
  unfold resolve. rewrite Hroutes, routesLoop_skip by exact Hbefore.
  simpl. rewrite method_test_true by exact Hkey. simpl.
  rewrite <- (app_nil_r rules). now rewrite scanRules_skip by exact Hrules.
Qed.

(** X3.  Only the first routes key that serves the method is consulted: the
    entries declared after it, and the flag the loop carries, do not change
    the result, even when a later key serves the method too. *)
Theorem first_key_commits
    (configData : MockApiConfig) (params : Params) (requestBody : JRecord)
    (m u1 u2 : string) (before after after' : list (string * MethodConfig))
    (key : string) (c : MethodConfig) (found found' : bool) :
  (forall k, In k (Object_keys before) -> ~ eq_nocase k m) ->
  eq_nocase key m ->
  routesLoop configData params requestBody (toUpperCase m) u1 u2
    (before ++ (key, c) :: after) found
  = routesLoop configData params requestBody (toUpperCase m) u1 u2
      (before ++ (key, c) :: after') found'.
Proof.
  intros Hbefore Hkey.
  assert (Hflag : forall f,
             routesLoop configData params requestBody (toUpperCase m) u1 u2
               (before ++ (key, c) :: after) f
             = routesLoop configData params requestBody (toUpperCase m) u1 u2
                 [(key, c)] false).
  { intros f. rewrite routesLoop_skip by exact Hbefore. simpl.
    rewrite method_test_true by exact Hkey. reflexivity. }
  rewrite Hflag. rewrite routesLoop_skip by exact Hbefore. simpl.
  rewrite method_test_true by exact Hkey. reflexivity.
Qed.

(** X4.  A resolution leaves at most one event: it logs an error only when
    it throws [InternalServerErrorException], and it arms a timer only when
    it returns data; in every other case the trace is unchanged. *)
Theorem resolve_events
    (configData : MockApiConfig) (params : Params) (requestBody : JRecord)
    (req : Request) (t : list Event) :
  snd (resolve configData params requestBody req t) = t
  \/ (exists v,
         resolve configData params requestBody req t
         = (Throw InternalServerErrorException,
            (t ++ [LogError
                     ("Invalid data type for method config. expected Array. found "
                        ++ typeof v)])%list))
  \/ (exists data call delay,
         resolve configData params requestBody req t
         = (Return data, (t ++ [SetTimeout call delay])%list)).
Proof.
  destruct (resolve_cases configData params requestBody req t)
    as [[_ E] | [(b & k & v & a & _ & _ & _ & E)
                | (b & k & rs & a & _ & _ & _ & _ & [(e & E & He) | (d & _ & _ & [E | (c & dl & E)])])]].
  - left. now rewrite E.
  - right; left. now exists v.
  - left. now rewrite E.
  - left. now rewrite E.
  - right; right. now exists d, c, dl.
Qed.

(** X5.  Whatever a resolution returns is the value that [getRequestedData]
    located, and it is truthy: the route parameters are never the answer. *)
Theorem returned_value_located
    (configData : MockApiConfig) (params : Params) (requestBody : JRecord)
    (req : Request) (data : JValue) (t t' : list Event) :
  resolve configData params requestBody req t = (Return data, t') ->
  outcome (getRequestedData configData (repoRootUrl1 params) (repoRootUrl2 params))
  = Return (Some data)
  /\ truthy data = true.
Proof.
  intros H.
  destruct (resolve_cases configData params requestBody req t)
    as [[_ E] | [(b & k & v & a & _ & _ & _ & E)
                | (b & k & rs & a & _ & _ & _ & _ & [(e & E & He) | (d & Hd & Ht & [E | (c & dl & E)])])]];
    rewrite E in H; inversion H; subst; now split.
Qed.

(** X6.  For a rule that is selected (and whose body check passes, if it is
    a guarded rule), a located value that is falsy - [undefined], [null],
    [false], zero, [NaN] or the empty string - is answered with
    [NotFoundException], also when it is a node that exists. *)
Theorem falsy_data_not_found
    (configData : MockApiConfig) (params : Params) (requestBody : JRecord)
    (req : Request) (r : PathConfig) (located : option JValue) (t : list Event) :
  selects configData params req r ->
  bodyAccepted r requestBody ->
  outcome (getRequestedData configData (repoRootUrl1 params) (repoRootUrl2 params))
  = Return located ->
  truthy_opt located = false ->
  resolve configData params requestBody req t = (Throw (NotFoundException None), t).
Proof.
  intros Hsel Hbody Hd Hfalsy.
  rewrite (resolve_selects requestBody Hsel).
  destruct Hsel as (_ & _ & _ & _ & _ & _ & _ & _ & _ & s & Hs & _).
  destruct r as [s'|p|v]; simpl in *.
  - unfold simpleRule, bind. rewrite getRequestedData_trace, Hd.
    now apply orNotFound_falsy.
  - unfold guardedRule, bind.
    rewrite checkBody_trace, Hbody, getRequestedData_trace, Hd.
    now rewrite orNotFound_falsy.
  - discriminate Hs.
Qed.

(** X7.  For a rule that is selected (and whose body check passes, if it is
    a guarded rule) under a configuration whose data is in an external file:
    when the file is retrieved and its text is no JSON, the resolution ends
    with the [SyntaxError] of [JSON.parse], not with a
    [NotFoundException]. *)
Theorem unparsable_data_throws
    (configData : MockApiConfig) (params : Params) (requestBody : JRecord)
    (req : Request) (r : PathConfig) (rawData : string) (t : list Event) :
  selects configData params req r ->
  bodyAccepted r requestBody ->
  configData.(dbFile) <> configFileName ->
  getRawFile (dataFileCandidates configData (repoRootUrl1 params) (repoRootUrl2 params))
  = RawData rawData ->
  JSON_parse rawData = None ->
  resolve configData params requestBody req t = (Throw SyntaxError, t).
Proof.
  intros Hsel Hbody Hfile Hraw Hparse.
  assert (Hd : outcome (getRequestedData configData (repoRootUrl1 params)
                          (repoRootUrl2 params)) = Throw SyntaxError).
  { unfold outcome, getRequestedData. apply String.eqb_neq in Hfile.
    now rewrite Hfile, Hraw, Hparse. }
  rewrite (resolve_selects requestBody Hsel).
  destruct Hsel as (_ & _ & _ & _ & _ & _ & _ & _ & _ & s & Hs & _).
  destruct r as [s'|p|v]; simpl in *.
  - unfold simpleRule, bind. now rewrite getRequestedData_trace, Hd.
  - unfold guardedRule, bind.
    now rewrite checkBody_trace, Hbody, getRequestedData_trace, Hd.
  - discriminate Hs.
Qed.

(** X8.  A resolution throws [MethodNotAllowedException] if and only if no
    key of [routes] equals the request's method up to letter case. *)
Theorem method_not_allowed_iff
    (configData : MockApiConfig) (params : Params) (requestBody : JRecord)
    (req : Request) (t : list Event) :
  fst (resolve configData params requestBody req t) = Throw MethodNotAllowedException
  <-> forall k, In k (Object_keys configData.(routes)) -> ~ eq_nocase k req.(method).
Proof.
  split.
  - intros H.
    destruct (resolve_cases configData params requestBody req t)
      as [[Hnone _] | [(b & k & v & a & _ & _ & _ & E)
                      | (b & k & rs & a & _ & _ & _ & _ & [(e & E & He) | (d & _ & _ & [E | (c & dl & E)])])]];
      [exact Hnone | rewrite E in H; simpl in H; try discriminate H ..].
    inversion H. subst e. discriminate He.
  - intros Hnone. unfold resolve.
    rewrite <- (app_nil_r configData.(routes)).
    now rewrite routesLoop_skip by exact Hnone.
Qed.

(** X9.  A resolution throws [InternalServerErrorException] if and only if
    the first routes key that equals the request's method up to letter case
    holds a value that is no array. *)
Theorem internal_error_iff
    (configData : MockApiConfig) (params : Params) (requestBody : JRecord)
    (req : Request) (t : list Event) :
  fst (resolve configData params requestBody req t) = Throw InternalServerErrorException
  <-> exists before key v after,
        configData.(routes) = (before ++ (key, MNotArray v) :: after)%list
        /\ (forall k, In k (Object_keys before) -> ~ eq_nocase k req.(method))
        /\ eq_nocase key req.(method).
Proof.
  split.
  - intros H.
    destruct (resolve_cases configData params requestBody req t)
      as [[_ E] | [(b & k & v & a & Hr & Hb & Hk & _)
                  | (b & k & rs & a & _ & _ & _ & _ & [(e & E & He) | (d & _ & _ & [E | (c & dl & E)])])]];
      [rewrite E in H; discriminate H
      | now exists b, k, v, a
      | rewrite E in H; simpl in H; try discriminate H ..].
    inversion H. subst e. discriminate He.
  - intros (before & key & v & after & Hroutes & Hbefore & Hkey).
    unfold resolve. rewrite Hroutes, routesLoop_skip by exact Hbefore.
    simpl. now rewrite method_test_true by exact Hkey.
Qed.

(** X10.  The body check of a guarded rule passes if and only if, when
    [restrictedBody] is true, every key of the body is a declared field with
    a non-empty name, and every field declared [true] has a non-empty name
    and is a key of the body. *)
Theorem checkBody_passes_iff (p : PostApi) (requestBody : JRecord) :
  outcome (checkBody p requestBody) = Return tt
  <-> (p.(restrictedBody) = true ->
       forall k, In k (Object_keys requestBody) ->
                 k <> "" /\ In k (Object_keys (declaredFields p)))
      /\ (forall f, getProp (declaredFields p) f = Some true ->
                    f <> "" /\ In f (Object_keys requestBody)).
Proof.
  apply checkBody_accepts.
Qed.

(** X11.  A guarded rule without [bodyFields] accepts every body when
    [restrictedBody] is false; when it is true it accepts the empty body
    only, and reports all the keys of any other body as not allowed. *)
Theorem no_contract_check (p : PostApi) (requestBody : JRecord) :
  p.(bodyFields) = None ->
  (p.(restrictedBody) = false -> outcome (checkBody p requestBody) = Return tt)
  /\ (p.(restrictedBody) = true -> requestBody = [] ->
      outcome (checkBody p requestBody) = Return tt)
  /\ (p.(restrictedBody) = true -> requestBody <> [] ->
      outcome (checkBody p requestBody)
      = Throw (BadRequestException (NotAllowedFields (Object_keys requestBody)))).
Proof.
  intros Hnone. unfold outcome, checkBody, bind, ret, throw. rewrite Hnone.
  assert (Hall : notAllowedFields (Object_keys (@nil (string * bool)))
                   (Object_keys requestBody) = Object_keys requestBody).
  { unfold notAllowedFields. simpl.
    induction (Object_keys requestBody) as [|k ks IH]; simpl; [reflexivity|].
    now rewrite IH. }
  rewrite Hall. split; [|split].
  - intros ->. reflexivity.
  - intros -> ->. reflexivity.
  - intros -> Hbody. destruct requestBody as [|[k v] rest]; [now contradiction Hbody|].
    reflexivity.
Qed.

(** X12.  A string rule that is selected ignores the body of the request
    and leaves no event: the resolution is the same for every body, and the
    trace is unchanged. *)
Theorem simple_rule_ignores_body
    (configData : MockApiConfig) (params : Params) (requestBody requestBody' : JRecord)
    (req : Request) (s : string) (t : list Event) :
  selects configData params req (PString s) ->
  resolve configData params requestBody' req t
  = resolve configData params requestBody req t
  /\ snd (resolve configData params requestBody req t) = t.
Proof.
  intros Hsel.
  rewrite (resolve_selects requestBody Hsel), (resolve_selects requestBody' Hsel).
  split; [reflexivity|]. simpl. unfold simpleRule, bind.
  rewrite getRequestedData_trace.
  destruct (outcome (getRequestedData _ _ _)) as [d|e]; [|reflexivity].
  now rewrite orNotFound_trace.
Qed.

(** X13.  For a guarded rule that is selected, whose body check passes and
    whose data is found: a value at [followProp] that is falsy - [null],
    [false], zero or the empty string - is ignored, the data is returned and
    nothing is armed, whether or not the value reads as a URL. *)
Theorem falsy_target_ignored
    (configData : MockApiConfig) (params : Params) (requestBody : JRecord)
    (req : Request) (p : PostApi) (data : JValue)
    (policy : ScheduleNotification) (target : JValue) (t : list Event) :
  selects configData params req (PPostApi p) ->
  outcome (checkBody p requestBody) = Return tt ->
  outcome (getRequestedData configData (repoRootUrl1 params) (repoRootUrl2 params))
  = Return (Some data) ->
  truthy data = true ->
  p.(scheduleNotification) = Some policy ->
  getProp requestBody policy.(followProp) = Some target ->
  truthy target = false ->
  resolve configData params requestBody req t = (Return data, t).
Proof.
  intros Hsel Hcheck Hdata Htruthy Hp Hb Ht.
  rewrite (resolve_selects requestBody Hsel). simpl.
  rewrite (@guardedRule_accepted env configData requestBody p _ _ data t
             Hcheck Hdata Htruthy).
  unfold scheduleIfAsked. now rewrite Hp, (readMember_own _ _ Hb), Ht.
Qed.

(** X14.  For a guarded rule that is selected with [restrictedBody] true
    and a policy whose [followProp] is not a declared field, no body ever
    arms the notification: a body that holds the field is rejected as not
    allowed, and a body without it arms nothing. *)
Theorem undeclared_followProp_never_armed
    (configData : MockApiConfig) (params : Params) (requestBody : JRecord)
    (req : Request) (p : PostApi) (policy : ScheduleNotification) (t : list Event) :
  selects configData params req (PPostApi p) ->
  p.(restrictedBody) = true ->
  p.(scheduleNotification) = Some policy ->
  ~ In policy.(followProp) (Object_keys (declaredFields p)) ->
  snd (resolve configData params requestBody req t) = t
  /\ (forall target,
         getProp requestBody policy.(followProp) = Some target ->
         exists fields,
           resolve configData params requestBody req t
           = (Throw (BadRequestException (NotAllowedFields fields)), t)
           /\ In policy.(followProp) fields).
Proof.
  intros Hsel Hrestricted Hp Hundeclared.
  rewrite (resolve_selects requestBody Hsel). simpl.
  assert (Hheld : forall target,
             getProp requestBody policy.(followProp) = Some target ->
             In policy.(followProp)
                (notAllowedFields (Object_keys (declaredFields p))
                   (Object_keys requestBody))).
  { intros target Hb. unfold notAllowedFields. apply filter_In.
    split; [exact (getProp_in_keys _ _ Hb)|].
    apply negb_true_iff.
    destruct (truthy_found (find_eq (followProp policy)
                              (Object_keys (declaredFields p)))) eqn:E;
      [|reflexivity].
    apply truthy_found_true in E. now contradiction Hundeclared. }
  assert (Hrejected : forall target,
             getProp requestBody policy.(followProp) = Some target ->
             guardedRule configData p requestBody (repoRootUrl1 params)
               (repoRootUrl2 params) t
             = (Throw (BadRequestException
                         (NotAllowedFields
                            (notAllowedFields (Object_keys (declaredFields p))
                               (Object_keys requestBody)))), t)).
  { intros target Hb. unfold guardedRule, bind at 1. unfold checkBody, bind at 1.
    fold (declaredFields p). rewrite Hrestricted.
    assert (Hne : nonEmpty (notAllowedFields (Object_keys (declaredFields p))
                              (Object_keys requestBody)) = true).
    { apply nonEmpty_true. intros E. specialize (Hheld target Hb).
      rewrite E in Hheld. destruct Hheld. }
    now rewrite Hne. }
  split.
  - destruct (getProp requestBody (followProp policy)) as [target|] eqn:Hb.
    + now rewrite (Hrejected target eq_refl).
    + unfold guardedRule, bind. rewrite checkBody_trace.
      destruct (outcome (checkBody p requestBody)) as [[]|e]; [|reflexivity].
      rewrite getRequestedData_trace.
      destruct (outcome (getRequestedData _ _ _)) as [d|e]; [|reflexivity].
      rewrite orNotFound_trace.
      destruct (outcome (orNotFound d)) as [v|e]; [|reflexivity].
      unfold scheduleIfAsked, readMember. rewrite Hp, Hb.
      now destruct (existsb _ objectPrototype).
  - intros target Hb. eexists. split; [exact (Hrejected target Hb)|].
    exact (Hheld target Hb).
Qed.

(** X15.  When the first routes key that serves the method holds a list in
    which [pathToRegexp] throws on a rule's template, and every element
    before it is passed over, the resolution ends with that very error,
    uncaught, whatever rules follow. *)
Theorem uncompilable_template_aborts
    (configData : MockApiConfig) (params : Params) (requestBody : JRecord)
    (req : Request) (before after : list (string * MethodConfig)) (key : string)
    (earlier later : list PathConfig) (r : PathConfig) (s : string)
    (e : NativeError) (t : list Event) :
  configData.(routes) = (before ++ (key, MArray (earlier ++ r :: later)) :: after)%list ->
  (forall k, In k (Object_keys before) -> ~ eq_nocase k req.(method)) ->
  eq_nocase key req.(method) ->
  Forall (passedOver configData (normalizePath params.(param0))) earlier ->
  rulePath r = Some s ->
  matches configData s (normalizePath params.(param0)) = inl e ->
  resolve configData params requestBody req t = (Throw (raise e), t).
Proof.
  intros Hroutes Hbefore Hkey Hearlier Hs Hm.
  unfold resolve. rewrite Hroutes, routesLoop_skip by exact Hbefore.
  simpl. rewrite method_test_true by exact Hkey. simpl.
  rewrite scanRules_skip by exact Hearlier.
  now apply scanRules_uncompilable with (s := s).
Qed.

End Further.

(** ** The claims on the example configuration *)

#[local] Existing Instance Demo.offline.

Lemma first_match_commits_witness :
  resolve (env := Demo.offline)
    (Demo.config Demo.twoOnOrders configFileName) Demo.params [] Demo.post
  = commitRule (Demo.config Demo.twoOnOrders configFileName) Demo.params []
      (PPostApi Demo.wantsA)
  /\ (forall later',
         scanRules (env := Demo.offline)
           (Demo.config Demo.twoOnOrders configFileName)
           (normalizePath Demo.params.(param0)) []
           (repoRootUrl1 Demo.params) (repoRootUrl2 Demo.params)
           ([PString "/users"] ++ PPostApi Demo.wantsA :: later')
         = commitRule (Demo.config Demo.twoOnOrders configFileName) Demo.params []
             (PPostApi Demo.wantsA))
  /\ (forall p e,
         PPostApi Demo.wantsA = PPostApi p ->
         outcome (checkBody p []) = Throw e ->
         (exists body, e = BadRequestException body)
         /\ forall t,
             resolve (env := Demo.offline)
               (Demo.config Demo.twoOnOrders configFileName) Demo.params [] Demo.post t
             = (Throw e, t)).
Proof.
  apply (@first_match_commits Demo.offline
           (Demo.config Demo.twoOnOrders configFileName) Demo.params [] Demo.post
           [("get", MArray [PString "/users"])] [] "post"
           [PString "/users"] [PString "/orders"]).
  - reflexivity.
  - exact get_is_not_POST.
  - exact post_serves_POST.
  - constructor; [reflexivity | constructor].
  - exists "/orders". split; reflexivity.
Defined.

Lemma method_not_matched_witness :
  resolve (env := Demo.offline)
    (Demo.config Demo.twoOnOrders configFileName) Demo.params []
    {| method := "delete" |} []
  = (Throw MethodNotAllowedException, []).
Proof.
  apply (@method_not_matched Demo.offline).
  intros k [<- | [<- | []]] H; vm_compute in H; discriminate H.
Defined.

Lemma invalid_rule_list_witness :
  resolve (env := Demo.offline) Demo.brokenConfig Demo.params [] Demo.post []
  = (Throw InternalServerErrorException,
     [LogError "Invalid data type for method config. expected Array. found string"])
  /\ fst (resolve (env := Demo.offline) Demo.brokenConfig Demo.params [] Demo.post [])
     <> Throw MethodNotAllowedException
  /\ forall m, fst (resolve (env := Demo.offline) Demo.brokenConfig Demo.params []
                      Demo.post [])
               <> Throw (NotFoundException m).
Proof.
  apply (@invalid_rule_list Demo.offline Demo.brokenConfig Demo.params []
           Demo.post [("get", MArray [PString "/users"])] []
           "Post" (JString "/orders") []).
  - reflexivity.
  - exact get_is_not_POST.
  - reflexivity.
Defined.

Lemma mandatory_fields_reported_witness :
  resolve (Demo.config Demo.twoOnOrders configFileName) Demo.params [] Demo.post []
  = (Throw (BadRequestException (MandatoryFields ["a"])), []).
Proof.
  refine (proj1 (proj2 (@mandatory_fields_reported Demo.offline
            (Demo.config Demo.twoOnOrders configFileName) Demo.params []
            Demo.post Demo.wantsA _ _ _)) _ []).
  - apply (@demo_selects Demo.nothing configFileName [PString "/users"]
             [PString "/orders"] (PPostApi Demo.wantsA)).
    + constructor; [reflexivity | constructor].
    + exists "/orders". split; reflexivity.
  - simpl. intros [H | [H | []]]; discriminate H.
  - left. reflexivity.
  - discriminate.
Defined.

(** With the contract [{a: true, b: false}], the body [{a: 1}] passes the
    check. *)
Example mandatory_field_present :
  outcome (checkBody Demo.wantsA [("a", JNumber 1)]) = Return tt.
Proof. reflexivity. Qed.

(** C3, as stated, fails: under the contract [{a: true}] with
    [restrictedBody], the body [{z: 2}] misses the mandatory field [a], and
    the failure that is thrown reports the disallowed key [z] and not the
    missing field. *)
Lemma mandatory_report_preempted :
  selects (Demo.config [PPostApi Demo.onlyA] configFileName) Demo.params Demo.post
    (PPostApi Demo.onlyA)
  /\ spec_missing (declaredFields Demo.onlyA) [("z", JNumber 2)] = ["a"]
  /\ resolve (Demo.config [PPostApi Demo.onlyA] configFileName) Demo.params
       [("z", JNumber 2)] Demo.post []
     = (Throw (BadRequestException (NotAllowedFields ["z"])), [])
  /\ fst (resolve (Demo.config [PPostApi Demo.onlyA] configFileName) Demo.params
            [("z", JNumber 2)] Demo.post [])
     <> Throw (BadRequestException (MandatoryFields ["a"])).
Proof.
  split; [|split; [|split]].
  - apply (@demo_selects Demo.nothing configFileName [] [] (PPostApi Demo.onlyA)).
    + constructor.
    + exists "/orders". split; reflexivity.
  - reflexivity.
  - reflexivity.
  - discriminate.
Qed.

(** With [restrictedBody] and the contract [{a: true}], the body
    [{a: 1, z: 2}] fails with the disallowed key [z]. *)
Example restricted_body_example :
  resolve (Demo.config [PPostApi Demo.onlyA] configFileName) Demo.params
    [("a", JNumber 1); ("z", JNumber 2)] Demo.post []
  = (Throw (BadRequestException (NotAllowedFields ["z"])), []).
Proof. reflexivity. Qed.

(** C4, at the failing input: the contract declares the field with the empty
    name, [restrictedBody] is true and the body holds only that field.  No
    key of the body is absent from the declared set, and the resolution
    still throws, reporting the empty name as not allowed. *)
Theorem declared_empty_key_rejected :
  selects (Demo.config [PPostApi (Demo.emptyName true)] configFileName)
    Demo.params Demo.post (PPostApi (Demo.emptyName true))
  /\ spec_disallowed (declaredFields (Demo.emptyName true)) [("", JNumber 1)] = []
  /\ resolve (Demo.config [PPostApi (Demo.emptyName true)] configFileName)
       Demo.params [("", JNumber 1)] Demo.post []
     = (Throw (BadRequestException (NotAllowedFields [""])), []).
Proof.
  split; [|split].
  - apply (@demo_selects Demo.nothing configFileName [] []
             (PPostApi (Demo.emptyName true))).
    + constructor.
    + exists "/orders". split; reflexivity.
  - reflexivity.
  - reflexivity.
Qed.

(** The same slip in the mandatory check: a mandatory field with the empty
    name is reported missing although the body holds it. *)
Example present_empty_key_reported_missing :
  spec_missing (declaredFields (Demo.emptyName false)) [("", JNumber 1)] = []
  /\ resolve (Demo.config [PPostApi (Demo.emptyName false)] configFileName)
       Demo.params [("", JNumber 1)] Demo.post []
     = (Throw (BadRequestException (MandatoryFields [""])), []).
Proof. split; reflexivity. Qed.

Lemma withCallback_selected (file : string) :
  selects (Demo.config [PPostApi Demo.withCallback] file) Demo.params Demo.post
    (PPostApi Demo.withCallback).
Proof.
  apply (@demo_selects Demo.nothing file [] [] (PPostApi Demo.withCallback)).
  - constructor.
  - exists "/orders". split; reflexivity.
Defined.

Lemma notification_armed_iff_witness :
  resolve (Demo.config [PPostApi Demo.withCallback] configFileName) Demo.params
    [("cb", JString "https://example.com/hook")] Demo.post []
  = (Return Demo.orders,
     [SetTimeout {| req_method := "GET";
                    req_url := "https://example.com/hook";
                    req_timeout := 5000 |} 2000]).
Proof.
  exact (proj1 (proj2 (@notification_armed_iff Demo.offline
           (Demo.config [PPostApi Demo.withCallback] configFileName) Demo.params
           [("cb", JString "https://example.com/hook")] Demo.post
           Demo.withCallback Demo.orders []
           (withCallback_selected configFileName) eq_refl eq_refl eq_refl))
         Demo.callback (JString "https://example.com/hook")
         "https://example.com/hook" eq_refl eq_refl eq_refl eq_refl).
Defined.

(** A body without the [followProp] field arms nothing. *)
Example no_callback_no_timer :
  scheduled (resolve (Demo.config [PPostApi Demo.withCallback] configFileName)
               Demo.params [] Demo.post) = [].
Proof. reflexivity. Qed.

(** C5, as stated, fails: the rule declares a policy, the body holds the
    non-empty value ["not a url"] at [followProp], the body check passes and
    the data is found, and yet no call is scheduled. *)
Lemma non_URL_arms_nothing :
  selects (Demo.config [PPostApi Demo.withCallback] configFileName) Demo.params
    Demo.post (PPostApi Demo.withCallback)
  /\ Demo.withCallback.(scheduleNotification) = Some Demo.callback
  /\ getProp [("cb", JString "not a url")] Demo.callback.(followProp)
     = Some (JString "not a url")
  /\ truthy (JString "not a url") = true
  /\ outcome (checkBody Demo.withCallback [("cb", JString "not a url")]) = Return tt
  /\ outcome (getRequestedData
                (Demo.config [PPostApi Demo.withCallback] configFileName)
                (repoRootUrl1 Demo.params) (repoRootUrl2 Demo.params))
     = Return (Some Demo.orders)
  /\ truthy Demo.orders = true
  /\ scheduled (resolve (Demo.config [PPostApi Demo.withCallback] configFileName)
                  Demo.params [("cb", JString "not a url")] Demo.post) = [].
Proof.
  split; [exact (withCallback_selected configFileName)|].
  repeat split.
Qed.

Lemma config_extraction_identity_witness :
  getRequestedData (Demo.config [PString "/orders"] configFileName)
    (repoRootUrl1 Demo.params) (repoRootUrl2 Demo.params) []
  = (Return (Some Demo.orders), []).
Proof.
  apply (@config_extraction_identity Demo.offline
           (Demo.config [PString "/orders"] configFileName)
           (repoRootUrl1 Demo.params) (repoRootUrl2 Demo.params) Demo.orders []).
  - intros dataPath root. reflexivity.
  - reflexivity.
  - apply walk_node_at. reflexivity.
Defined.

Lemma lookup_failure_not_found_witness :
  resolve (Demo.config [PString "/orders"] "orders.json") Demo.params []
    Demo.post []
  = (Throw (NotFoundException None), []).
Proof.
  apply (@lookup_failure_not_found Demo.offline
           (Demo.config [PString "/orders"] "orders.json") Demo.params []
           Demo.post (PString "/orders") []).
  - apply (@demo_selects Demo.nothing "orders.json" [] [] (PString "/orders")).
    + constructor.
    + exists "/orders". split; reflexivity.
  - exact I.
  - discriminate.
  - left. eexists. reflexivity.
Defined.

(** The extraction that finds no node: the file is retrieved and parsed, and
    has nothing under [data.orders]. *)
Example extraction_failure_not_found :
  resolve (env := Demo.online) (Demo.config [PString "/orders"] "empty.json")
    Demo.params [] Demo.post []
  = (Throw (NotFoundException None), []).
Proof. reflexivity. Qed.

Lemma malformed_target_throws_witness :
  resolve (Demo.config [PPostApi Demo.withCallback] configFileName) Demo.params
    [("cb", JString "not a url")] Demo.post []
  = (Throw (TypeError "Invalid URL"), [])
  /\ forall body,
       fst (resolve (Demo.config [PPostApi Demo.withCallback] configFileName)
              Demo.params [("cb", JString "not a url")] Demo.post [])
       <> Throw (BadRequestException body).
Proof.
  exact (@malformed_target_throws Demo.offline
           (Demo.config [PPostApi Demo.withCallback] configFileName) Demo.params
           [("cb", JString "not a url")] Demo.post Demo.withCallback Demo.orders
           Demo.callback (JString "not a url") []
           (withCallback_selected configFileName)
           eq_refl eq_refl eq_refl eq_refl eq_refl eq_refl eq_refl).
Defined.

(** Two rules on the same path: the one declared first is the one that
    answers, so that swapping them changes the outcome. *)
Example reordering_changes_selection :
  resolve (Demo.config [PPostApi Demo.wantsA; PString "/orders"] configFileName)
    Demo.params [] Demo.post []
  = (Throw (BadRequestException (MandatoryFields ["a"])), [])
  /\ resolve (Demo.config [PString "/orders"; PPostApi Demo.wantsA] configFileName)
       Demo.params [] Demo.post []
     = (Return Demo.orders, []).
Proof. split; reflexivity. Qed.

(** A template declared [/Item/:id] serves the path [/item/7] in the example
    environment. *)
Example template_ignores_case :
  matches (Demo.config [] configFileName) "/Item/:id" "/api/item/7" = inr true.
Proof. reflexivity. Qed.

(** ** More of the controller on the example configuration *)

(** Offline, the configuration itself cannot be fetched: the failure is
    logged and reported with one error for each candidate. *)
Example configuration_unreachable :
  getRepoPage Demo.params [] Demo.post []
  = (Throw (BadRequestException
              (ConfigErrors
                 ["cannot fetch https://raw.githubusercontent.com/octo/mock/main/.mockapi.yml";
                  "cannot fetch https://api.github.com/repos/octo/mock/contents/.mockapi.yml"])),
     [LogError "> Failed to retrieve raw data from https://raw.githubusercontent.com."]).
Proof. reflexivity. Qed.

Lemma no_rule_matched_witness :
  resolve Demo.twoPostKeys Demo.params [] Demo.post []
  = (Throw (NotFoundException
              (Some "The requested entity was not found in the current location: /api/orders")),
     []).
Proof.
  apply (@no_rule_matched Demo.offline Demo.twoPostKeys Demo.params [] Demo.post
           [] [("POST", MArray [PString "/orders"])] "post" [PString "/users"] []).
  - reflexivity.
  - intros k [].
  - exact post_serves_POST.
  - constructor; [reflexivity | constructor].
Defined.

Lemma first_key_commits_witness :
  routesLoop Demo.twoPostKeys Demo.params [] (toUpperCase "POST")
    (repoRootUrl1 Demo.params) (repoRootUrl2 Demo.params)
    ([] ++ ("post", MArray [PString "/users"])
        :: [("POST", MArray [PString "/orders"])])
    false
  = routesLoop Demo.twoPostKeys Demo.params [] (toUpperCase "POST")
      (repoRootUrl1 Demo.params) (repoRootUrl2 Demo.params)
      ([] ++ ("post", MArray [PString "/users"]) :: [])
      true.
Proof.
  apply (@first_key_commits Demo.offline Demo.twoPostKeys Demo.params [] "POST"
           (repoRootUrl1 Demo.params) (repoRootUrl2 Demo.params) []
           [("POST", MArray [PString "/orders"])] [] "post"
           (MArray [PString "/users"]) false true).
  - intros k [].
  - exact post_serves_POST.
Defined.

Lemma returned_value_located_witness :
  outcome (getRequestedData (Demo.config [PString "/orders"] configFileName)
             (repoRootUrl1 Demo.params) (repoRootUrl2 Demo.params))
  = Return (Some Demo.orders)
  /\ truthy Demo.orders = true.
Proof.
  exact (@returned_value_located Demo.offline
           (Demo.config [PString "/orders"] configFileName) Demo.params []
           Demo.post Demo.orders [] [] eq_refl).
Defined.

Lemma zeroConfig_selected :
  selects Demo.zeroConfig Demo.params Demo.post (PString "/orders").
Proof.
  exists [], "post", [], [], []. split; [reflexivity|].
  split; [intros k []|]. split; [exact post_serves_POST|].
  split; [constructor|]. exists "/orders". split; reflexivity.
Defined.

Lemma falsy_data_not_found_witness :
  resolve Demo.zeroConfig Demo.params [] Demo.post []
  = (Throw (NotFoundException None), []).
Proof.
  exact (@falsy_data_not_found Demo.offline Demo.zeroConfig Demo.params []
           Demo.post (PString "/orders") (Some (JNumber 0)) []
           zeroConfig_selected I eq_refl eq_refl).
Defined.

Lemma unparsable_data_throws_witness :
  resolve (env := Demo.stale) (Demo.config [PString "/orders"] "orders.json")
    Demo.params [] Demo.post []
  = (Throw SyntaxError, []).
Proof.
  apply (@unparsable_data_throws Demo.stale
           (Demo.config [PString "/orders"] "orders.json") Demo.params []
           Demo.post (PString "/orders") "<html>moved</html>" []).
  - apply (@demo_selects Demo.staleRemote "orders.json" [] [] (PString "/orders")).
    + constructor.
    + exists "/orders". split; reflexivity.
  - exact I.
  - discriminate.
  - reflexivity.
  - reflexivity.
Defined.

Lemma no_contract_check_witness :
  outcome (checkBody (Demo.noContract true) [("z", JNumber 2)])
  = Throw (BadRequestException (NotAllowedFields ["z"])).
Proof.
  refine (proj2 (proj2 (@no_contract_check (Demo.noContract true)
                          [("z", JNumber 2)] eq_refl)) eq_refl _).
  discriminate.
Defined.

Lemma simple_rule_ignores_body_witness :
  resolve (Demo.config [PString "/orders"] configFileName) Demo.params
    [("a", JNumber 1)] Demo.post []
  = resolve (Demo.config [PString "/orders"] configFileName) Demo.params []
      Demo.post []
  /\ snd (resolve (Demo.config [PString "/orders"] configFileName) Demo.params []
            Demo.post []) = [].
Proof.
  apply (@simple_rule_ignores_body Demo.offline
           (Demo.config [PString "/orders"] configFileName) Demo.params []
           [("a", JNumber 1)] Demo.post "/orders" []).
  apply (@demo_selects Demo.nothing configFileName [] [] (PString "/orders")).
  - constructor.
  - exists "/orders". split; reflexivity.
Defined.

Lemma falsy_target_ignored_witness :
  resolve (Demo.config [PPostApi Demo.withCallback] configFileName) Demo.params
    [("cb", JString "")] Demo.post []
  = (Return Demo.orders, []).
Proof.
  exact (@falsy_target_ignored Demo.offline
           (Demo.config [PPostApi Demo.withCallback] configFileName) Demo.params
           [("cb", JString "")] Demo.post Demo.withCallback Demo.orders
           Demo.callback (JString "") []
           (withCallback_selected configFileName)
           eq_refl eq_refl eq_refl eq_refl eq_refl eq_refl).
Defined.

Lemma undeclared_followProp_never_armed_witness :
  snd (resolve (Demo.config [PPostApi Demo.strictWithCallback] configFileName)
         Demo.params [("cb", JString "https://example.com/hook")] Demo.post [])
  = [].
Proof.
  refine (proj1 (@undeclared_followProp_never_armed Demo.offline
                   (Demo.config [PPostApi Demo.strictWithCallback] configFileName)
                   Demo.params [("cb", JString "https://example.com/hook")]
                   Demo.post Demo.strictWithCallback Demo.callback [] _ eq_refl
                   eq_refl _)).
  - apply (@demo_selects Demo.nothing configFileName [] []
             (PPostApi Demo.strictWithCallback)).
    + constructor.
    + exists "/orders". split; reflexivity.
  - simpl. intros [H | []]. discriminate H.
Defined.

(** The body that holds the undeclared [cb] is rejected for it. *)
Example undeclared_followProp_rejected :
  resolve (Demo.config [PPostApi Demo.strictWithCallback] configFileName)
    Demo.params [("cb", JString "https://example.com/hook")] Demo.post []
  = (Throw (BadRequestException (NotAllowedFields ["cb"])), []).
Proof. reflexivity. Qed.

Lemma uncompilable_template_aborts_witness :
  resolve (Demo.config [PString "/users"; PString "/:"; PString "/orders"]
             configFileName)
    Demo.params [] Demo.post []
  = (Throw (TypeError "Missing parameter name at 5"), []).
Proof.
  apply (@uncompilable_template_aborts Demo.offline
           (Demo.config [PString "/users"; PString "/:"; PString "/orders"]
              configFileName)
           Demo.params [] Demo.post [("get", MArray [PString "/users"])] []
           "post" [PString "/users"] [PString "/orders"] (PString "/:") "/:"
           (NativeTypeError "Missing parameter name at 5") []).
  - reflexivity.
  - exact get_is_not_POST.
  - exact post_serves_POST.
  - constructor; [reflexivity | constructor].
  - reflexivity.
  - reflexivity.
Defined.

(** A configuration that [loadConfig] rejects is reported with its errors,
    and nothing is logged. *)
Example configuration_rejected :
  getRepoPage (env := Demo.stale) Demo.params [] Demo.post []
  = (Throw (BadRequestException (ConfigErrors ["routes is missing"])), []).
Proof. reflexivity. Qed.

(** A policy that follows [constructor]: the empty body inherits that member,
    which is no URL, and the resolution ends with the error of [new URL]. *)
Example inherited_member_throws :
  resolve (Demo.config [PPostApi Demo.followsConstructor] configFileName)
    Demo.params [] Demo.post []
  = (Throw (TypeError "Invalid URL"), []).
Proof. reflexivity. Qed.

(** Under an upper-casing that maps the long s to [S], the routes declared
    under the key with a long s serve the method [POST]. *)
Example long_s_key_serves_POST :
  eq_nocase (env := Demo.unicode) Demo.longSKey "POST"
  /\ resolve (env := Demo.unicode) Demo.longSConfig Demo.params [] Demo.post []
     = (Return Demo.orders, []).
Proof. split; reflexivity. Qed.
